(** * mddocproc: the rule engine of the markdown documentation processor

    A shallow embedding of [mddocproc/_rules.py] and [_document.py] and of
    the Python library functions they call ([str] methods, [posixpath],
    [fnmatch], [urllib.parse.unquote], [difflib.unified_diff]).

    Python [str] values are modelled as [string]: sequences of code points
    below 256.  Mutable objects (the document, the context, the process-wide
    logger) are threaded explicitly through every rule. *)

From Stdlib Require Import Strings.String Strings.Ascii Lists.List Arith.PeanoNat Bool.Bool.
From Stdlib Require Import Numbers.DecimalString.
From stdpp Require Import base option list gmap strings.

Local Open Scope string_scope.
Local Open Scope char_scope.
Local Open Scope list_scope.

(** ** Python [str] primitives *)

Module Py.

(** [s[:n]] *)
Fixpoint take (n : nat) (s : string) : string :=
  match n, s with
  | S n', String c s' => String c (take n' s')
  | _, _ => ""%string
  end.

(** [s[n:]] *)
Fixpoint drop (n : nat) (s : string) : string :=
  match n, s with
  | S n', String _ s' => drop n' s'
  | _, _ => s
  end.

(** [s[i:j]] *)
Definition slice (i j : nat) (s : string) : string := take (j - i) (drop i s).

Definition len (s : string) : nat := String.length s.

(** [s.startswith(p)] *)
Definition startswith (p s : string) : bool := String.prefix p s.

(** [s.endswith(p)] *)
Definition endswith (p s : string) : bool :=
  (len p <=? len s)%nat && String.eqb (drop (len s - len p) s) p.

(** [sub in s] *)
Fixpoint contains (sub s : string) : bool :=
  startswith sub s ||
  match s with
  | String _ s' => contains sub s'
  | EmptyString => false
  end.

(** [s.rfind(c) + 1] for a one-character [c]: the index just after the last
    occurrence, [0] when there is none. *)
Fixpoint rfind_succ (c : ascii) (s : string) : nat :=
  match s with
  | EmptyString => 0
  | String a s' =>
      match rfind_succ c s' with
      | 0 => if Ascii.eqb a c then 1 else 0
      | S k => S (S k)
      end
  end.

(** [s.split(c)] for a one-character separator. *)
Fixpoint split (c : ascii) (s : string) : list string :=
  match s with
  | EmptyString => [""%string]
  | String a s' =>
      if Ascii.eqb a c then ""%string :: split c s'
      else match split c s' with
           | h :: t => String a h :: t
           | [] => [String a ""]
           end
  end.

(** [sep.join(l)] *)
Fixpoint join (sep : string) (l : list string) : string :=
  match l with
  | [] => ""%string
  | [x] => x
  | x :: l' => x +:+ sep +:+ join sep l'
  end.

(** [c.isspace()] on code points below 256. *)
Definition isspace (c : ascii) : bool :=
  let n := nat_of_ascii c in
  ((9 <=? n) && (n <=? 13) || (28 <=? n) && (n <=? 32) || (n =? 133) || (n =? 160))%nat.

Fixpoint lstrip_by (p : ascii -> bool) (s : string) : string :=
  match s with
  | String a s' => if p a then lstrip_by p s' else s
  | EmptyString => ""%string
  end.

Fixpoint rstrip_by (p : ascii -> bool) (s : string) : string :=
  match s with
  | EmptyString => ""%string
  | String a s' =>
      match rstrip_by p s' with
      | EmptyString => if p a then ""%string else String a ""
      | r => String a r
      end
  end.

(** [s.strip()] *)
Definition strip (s : string) : string := rstrip_by isspace (lstrip_by isspace s).

(** [s.lstrip(c)] and [s.rstrip(c)] for a one-character set. *)
Definition lstrip_char (c : ascii) (s : string) : string := lstrip_by (Ascii.eqb c) s.
Definition rstrip_char (c : ascii) (s : string) : string := rstrip_by (Ascii.eqb c) s.

(** [s.replace(old, new)]: every non-overlapping occurrence, left to right.
    [skip] counts the characters of an occurrence still to be dropped. *)
Fixpoint replace_go (old new : string) (skip : nat) (s : string) : string :=
  match s with
  | EmptyString => ""%string
  | String a s' =>
      match skip with
      | S k => replace_go old new k s'
      | 0 =>
          if startswith old s then new +:+ replace_go old new (len old - 1) s'
          else String a (replace_go old new 0 s')
      end
  end.

Fixpoint intersperse (new s : string) : string :=
  match s with
  | EmptyString => new
  | String a s' => new +:+ String a (intersperse new s')
  end.

Definition replace (old new s : string) : string :=
  match old with
  | EmptyString => intersperse new s
  | _ => replace_go old new 0 s
  end.

(** [c.lower()] on code points below 256. *)
Definition lower_char (c : ascii) : ascii :=
  let n := nat_of_ascii c in
  if ((65 <=? n) && (n <=? 90) || (192 <=? n) && (n <=? 222) && negb (n =? 215))%nat
  then ascii_of_nat (n + 32) else c.

Fixpoint lower (s : string) : string :=
  match s with
  | EmptyString => ""%string
  | String a s' => String (lower_char a) (lower s')
  end.

(** [c * n] *)
Fixpoint repeat_char (c : ascii) (n : nat) : string :=
  match n with
  | 0 => ""%string
  | S n' => String c (repeat_char c n')
  end.

(** [str(n)] for a non-negative integer. *)
Definition str_of_nat (n : nat) : string := NilEmpty.string_of_uint (Nat.to_uint n).

End Py.

(** ** [posixpath] *)

Module PosixPath.

Definition sep : ascii := "/".

(** [os.path.isabs] *)
Definition isabs (p : string) : bool := Py.startswith "/" p.

(** [os.path.join(a, b)]: one step of the loop of [join(a, *p)]. *)
Definition join2 (path b : string) : string :=
  if Py.startswith "/" b then b
  else if String.eqb path "" || Py.endswith "/" path then path +:+ b
  else path +:+ "/" +:+ b.

(** [os.path.join(a, *p)] *)
Definition join (a : string) (p : list string) : string := fold_left join2 p a.

(** [os.path.basename] *)
Definition basename (p : string) : string := Py.drop (Py.rfind_succ sep p) p.

(** [os.path.dirname] *)
Definition dirname (p : string) : string :=
  let head := Py.take (Py.rfind_succ sep p) p in
  if negb (String.eqb head "") && negb (String.eqb head (Py.repeat_char sep (Py.len head)))
  then Py.rstrip_char sep head
  else head.

(** The loop of [normpath] over the components, [new_comps] kept in
    reverse order. *)
Fixpoint normpath_comps (initial_slashes : nat) (comps new_comps : list string) : list string :=
  match comps with
  | [] => rev new_comps
  | comp :: comps' =>
      if String.eqb comp "" || String.eqb comp "." then
        normpath_comps initial_slashes comps' new_comps
      else if negb (String.eqb comp "..")
              || ((initial_slashes =? 0)%nat && match new_comps with [] => true | _ => false end)
              || match new_comps with last :: _ => String.eqb last ".." | [] => false end
      then normpath_comps initial_slashes comps' (comp :: new_comps)
      else normpath_comps initial_slashes comps' (tl new_comps)
  end.

(** [os.path.normpath] *)
Definition normpath (path : string) : string :=
  if String.eqb path "" then "."%string
  else
    let initial_slashes :=
      if Py.startswith "/" path then
        if Py.startswith "//" path && negb (Py.startswith "///" path) then 2 else 1
      else 0 in
    let comps := normpath_comps initial_slashes (Py.split sep path) [] in
    let path' := Py.repeat_char sep initial_slashes +:+ Py.join "/" comps in
    if String.eqb path' "" then "."%string else path'.

(** [os.path.abspath], with the process's working directory explicit. *)
Definition abspath (cwd path : string) : string :=
  normpath (if isabs path then path else join2 cwd path).

(** [len(commonprefix([l1, l2]))] on two lists of components. *)
Fixpoint common_len (l1 l2 : list string) : nat :=
  match l1, l2 with
  | x :: l1', y :: l2' => if String.eqb x y then S (common_len l1' l2') else 0
  | _, _ => 0
  end.

Definition nonempty (x : string) : bool := negb (String.eqb x "").

(** [os.path.relpath(path, start)]; [None] stands for the [ValueError]
    raised on an empty [path]. *)
Definition relpath (cwd path start : string) : option string :=
  if String.eqb path "" then None
  else
    let start_list := List.filter nonempty (Py.split sep (abspath cwd start)) in
    let path_list := List.filter nonempty (Py.split sep (abspath cwd path)) in
    let i := common_len start_list path_list in
    let rel_list := repeat ".."%string (length start_list - i) ++ skipn i path_list in
    match rel_list with
    | [] => Some "."%string
    | a :: p => Some (join a p)
    end.

(** [pathlib.PurePath.parent] on the string form of a path. *)
Definition parent (p : string) : string :=
  let d := dirname p in if String.eqb d "" then "."%string else d.

(** [Path(dir).joinpath(link).resolve()] on a file system without symbolic
    links.  [os.lstat] raises [ValueError] on a name that holds the NUL
    character, for which [None] stands; an absolute path comes out with one
    leading slash, however many it had. *)
Definition resolve (cwd dir link : string) : option string :=
  let joined := join2 dir link in
  if Py.contains (String "000" "") joined then None
  else if isabs joined then Some (normpath (String "/" (Py.lstrip_char "/" joined)))
  else Some (abspath cwd joined).

End PosixPath.

(** ** [urllib.parse.unquote] *)

Module UrlParse.

Definition hexval (c : ascii) : option nat :=
  let n := nat_of_ascii c in
  if ((48 <=? n) && (n <=? 57))%nat then Some (n - 48)
  else if ((65 <=? n) && (n <=? 70))%nat then Some (n - 55)
  else if ((97 <=? n) && (n <=? 102))%nat then Some (n - 87)
  else None.

(** [unquote] on text whose escapes denote code points below 128: an escape
    [%XY] of two hexadecimal digits becomes that character, any other [%]
    stays.  Escapes of 0x80 and above, which Python decodes as UTF-8, are
    outside this model and are left in place. *)
Fixpoint unquote (s : string) : string :=
  match s with
  | EmptyString => ""%string
  | String c t =>
      if Ascii.eqb c "%" then
        match t with
        | String x (String y s') =>
            match hexval x, hexval y with
            | Some h, Some l =>
                if (h <? 8)%nat then String (ascii_of_nat (16 * h + l)) (unquote s')
                else String c (unquote t)
            | _, _ => String c (unquote t)
            end
        | _ => String c (unquote t)
        end
      else String c (unquote t)
  end.

End UrlParse.

(** ** Data model *)

(** [mddocformatter/_document.py]: [Document].  Paths are kept in the string
    form of their [pathlib.Path]. *)
Record Document := {
  input_path : string;
  target_path : string;
  original_contents : string;
  contents : string
}.

(** [Document.__init__] *)
Definition Document_init (input_path data : string) : Document :=
  {| input_path := input_path; target_path := input_path;
     original_contents := data; contents := data |}.

Definition set_contents (d : Document) (c : string) : Document :=
  {| input_path := input_path d; target_path := target_path d;
     original_contents := original_contents d; contents := c |}.

Definition set_target_path (d : Document) (p : string) : Document :=
  {| input_path := input_path d; target_path := p;
     original_contents := original_contents d; contents := contents d |}.

(** [Document.unchanged] *)
Definition unchanged (d : Document) : bool :=
  String.eqb (original_contents d) (contents d).

(** A callable macro.  [inspect_signature] is what [inspect.signature]
    returns for it, as the text of the signature and the number of its
    parameters; [None] stands for the [ValueError] that it raises on a
    callable without a signature, such as the built-in [max] or the bound
    method [str.format].  [call] is the call with positional string
    arguments; [None] stands for a raised [Exception]. *)
Record Callable := {
  inspect_signature : option (string * nat);
  call : list string -> option string
}.

(** A function defined in Python with [n] positional parameters: any other
    number of arguments raises [TypeError] before the body runs. *)
Definition py_function (sig : string) (n : nat) (body : list string -> option string) : Callable :=
  {| inspect_signature := Some (sig, n);
     call := fun args => if (length args =? n)%nat then body args else None |}.

(** A value of the macro table as section 3 of the specification has it: a
    constant string, or a callable that returns a string or raises an
    [Exception].  Other objects are outside this model. *)
Inductive Macro :=
  | MConst (value : string)
  | MCallable (f : Callable).

(** Modelled from the spec: [ProcessingSettings] lives in [_processing.py],
    which is not among the sources; section 3 of the specification gives it a
    root directory, an optional target directory, an optional version label
    and the macro table. *)
Record ProcessingSettings := {
  root_directory : string;
  target_directory : option string;
  version_name : option string;
  macros : gmap string Macro
}.

(** Modelled from the spec: [ProcessingContext] of [_processing.py]; [target]
    is the attribute that [rename_uniquely_for_confluence] assigns. *)
Record ProcessingContext := {
  settings : ProcessingSettings;
  target : option string
}.

Inductive LogLevel := WARNING | ERROR.

(** One record of the module's [logger]; [logger.exception] logs at [ERROR]. *)
Definition LogRecord : Type := LogLevel * string.

(** The objects a rule can touch. *)
Record World := {
  context : ProcessingContext;
  document : Document;
  log : list LogRecord
}.

Definition with_document (w : World) (d : Document) : World :=
  {| context := context w; document := d; log := log w |}.

Definition with_context (w : World) (c : ProcessingContext) : World :=
  {| context := c; document := document w; log := log w |}.

Definition logged (w : World) (r : LogRecord) : World :=
  {| context := context w; document := document w; log := log w ++ [r] |}.

Inductive Exn := ValueError | TypeError | KeyError | OSError.

(** The result of running a piece of code: it returns, raises, or is still
    running when the fuel of a [while] loop is spent. *)
Inductive Outcome (A : Type) :=
  | Done (a : A)
  | Raised (e : Exn)
  | OutOfFuel.
Arguments Done {A} a.
Arguments Raised {A} e.
Arguments OutOfFuel {A}.

#[global] Instance Outcome_ret : MRet Outcome := fun A a => Done a.

#[global] Instance Outcome_fmap : FMap Outcome := fun A B f m =>
  match m with
  | Done a => Done (f a)
  | Raised e => Raised e
  | OutOfFuel => OutOfFuel
  end.

#[global] Instance Outcome_bind : MBind Outcome := fun A B k m =>
  match m with
  | Done a => k a
  | Raised e => Raised e
  | OutOfFuel => OutOfFuel
  end.

(** ** Regular expressions *)

(** What [re.search] reports of a match: the span of group 0 in the searched
    string and the text of groups 1 and 2. *)
Record Match := {
  span : nat * nat;
  group1 : string;
  group2 : string
}.

(** A compiled pattern, as its [search] function. *)
Definition Pattern : Type := string -> option Match.

(** The constants of [_consts.py] and the helper of [_utils.py], which are not
    among the sources, and the process's environment: the decoding function
    of [urllib.parse], the working directory, and the file system.
    [path_exists] tells whether [os.stat] finds the path; [stat_fails] tells
    whether [os.stat] fails on it with an error that [Path.exists] does not
    take for absence, such as a name that is too long or a directory that
    may not be searched. *)
Record Env := {
  regex_const_macro : Pattern;
  regex_function_macro : Pattern;
  regex_markdown_link : Pattern;
  format_markdown_link : string -> string -> string;
  unquote : string -> string;
  cwd : string;
  path_exists : string -> bool;
  stat_fails : string -> bool
}.

(** ** [mddocproc/_rules.py] *)

(** [_get_next_match]; [group0] is [match.group(0)] in the coordinates of
    the whole contents. *)
Definition _get_next_match (document : Document) (pointer : nat) (regex : Pattern)
  : option Match * nat * nat :=
  match regex (Py.drop pointer (contents document)) with
  | None => (None, 0, 0)
  | Some m => (Some m, fst (span m) + pointer, snd (span m) + pointer)
  end.

Definition group0 (document : Document) (start end_ : nat) : string :=
  Py.slice start end_ (contents document).

Definition _replace_span (document : Document) (start end_ : nat) (replacement : string) : string :=
  Py.join "" [Py.take start (contents document); replacement; Py.drop end_ (contents document)].

(** The newline, as a string. *)
Definition NL : string := String "010" "".

(** *** Table of contents *)

Definition _calculate_toc_indent_for_heading (line : string) : nat :=
  Nat.max 0 (Py.len line - Py.len (Py.lstrip_char "#" line) - 1) * 2.

(** The body of the loop of [_create_toc_from_sections] on one stripped
    line: the entries it appends. *)
Definition toc_entry (E : Env) (line : string) : list (nat * string) :=
  if Py.startswith "#" line then
    let indent_size := _calculate_toc_indent_for_heading line in
    let stripped := Py.strip (Py.lstrip_char "#" line) in
    [(indent_size, " - " +:+ format_markdown_link E stripped ("#" +:+ stripped))]
  else [].

(** [min] of a non-empty sequence. *)
Definition min_list (l : list nat) : nat :=
  match l with
  | [] => 0
  | x :: l' => fold_left Nat.min l' x
  end.

Definition toc_line (smallest_indent : nat) (x : nat * string) : string :=
  Py.repeat_char " " (fst x - smallest_indent) +:+ snd x.

Definition _create_toc_from_sections (E : Env) (lines : list string) : string :=
  let table_entries := flat_map (toc_entry E) (map Py.strip lines) in
  let smallest_indent :=
    match table_entries with
    | [] => 0
    | _ => min_list (map fst table_entries)
    end in
  Py.join NL (map (toc_line smallest_indent) table_entries).

Definition TABLE_OF_CONTENTS_VARIABLE : string := "${create_table_of_contents}".

(** The loop of [create_table_of_contents]: at line [i] the remaining list is
    [lines[i + 1:]]. *)
Fixpoint toc_processed (E : Env) (lines : list string) : list string :=
  match lines with
  | [] => []
  | line :: rest =>
      (if Py.contains TABLE_OF_CONTENTS_VARIABLE line
       then Py.replace TABLE_OF_CONTENTS_VARIABLE (_create_toc_from_sections E rest) line
       else line) :: toc_processed E rest
  end.

Definition create_table_of_contents_fn (E : Env) (w : World) : Outcome World :=
  let lines := Py.split "010" (contents (document w)) in
  Done (with_document w (set_contents (document w) (Py.join NL (toc_processed E lines)))).

(** *** Macros *)

(** One iteration of the loop of [_replace_const_macros], after a match: the
    new state and the new scan pointer. *)
Definition const_macro_body (w : World) (m : Match) (start end_ : nat) : World * nat :=
  let macroName := group1 m in
  match macros (settings (context w)) !! macroName with
  | Some (MConst value) =>
      (with_document w
         (set_contents (document w) (_replace_span (document w) start end_ value)),
       start)
  | Some (MCallable _) =>
      (logged w (ERROR,
         "Exception encountered trying to resolve " +:+ group0 (document w) start end_
         +:+ " as " +:+ macroName +:+ " is a function, not a const."),
       end_)
  | None =>
      (logged w (WARNING,
         "Invalid macro: found " +:+ group0 (document w) start end_ +:+ " in "
         +:+ input_path (document w) +:+ ", but no matching macro is defined."),
       end_)
  end.

Fixpoint const_macros_loop (E : Env) (fuel : nat) (w : World) (pointer : nat) : Outcome World :=
  if (pointer <? Py.len (contents (document w)))%nat then
    match _get_next_match (document w) pointer (regex_const_macro E) with
    | (None, _, _) => Done w
    | (Some m, start, end_) =>
        match fuel with
        | 0 => OutOfFuel
        | S fuel' =>
            let (w', pointer') := const_macro_body w m start end_ in
            const_macros_loop E fuel' w' pointer'
        end
    end
  else Done w.

Definition _replace_const_macros (E : Env) (fuel : nat) (w : World) : Outcome World :=
  const_macros_loop E fuel w 0.

Definition _extract_args (value : string) : list string :=
  match value with
  | EmptyString => []
  | _ => map Py.strip (Py.split "," value)
  end.

Definition _run_function_macro (w : World) (functionName : string) (args : list string)
    (origin_match : string) : Outcome (World * (bool * option string)) :=
  match macros (settings (context w)) !! functionName with
  | None => Raised KeyError
  | Some (MCallable f) =>
      match call f args with
      | Some value => Done (w, (true, Some value))
      | None =>
          match inspect_signature f with
          | None => Raised ValueError
          | Some (signature, parameters) =>
              if negb (length args =? parameters)%nat then
                Done (logged w (ERROR,
                        "Exception encountered trying to resolve " +:+ origin_match
                        +:+ " using " +:+ signature +:+ ". Expected "
                        +:+ Py.str_of_nat parameters +:+ " args, got "
                        +:+ Py.str_of_nat (length args) +:+ "."),
                      (false, None))
              else
                Done (logged w (ERROR,
                        "Exception encountered trying to resolve " +:+ origin_match
                        +:+ " using " +:+ signature +:+ "."),
                      (false, None))
          end
      end
  | Some (MConst _) =>
      Done (logged w (ERROR,
              "Exception encountered trying to resolve " +:+ origin_match +:+ " as "
              +:+ functionName +:+ " is not a function."),
            (false, None))
  end.

(** One iteration of the loop of [_replace_function_macros], after a match. *)
Definition function_macro_body (w : World) (m : Match) (start end_ : nat) : Outcome (World * nat) :=
  let macroName := group1 m in
  match macros (settings (context w)) !! macroName with
  | Some _ =>
      let args := _extract_args (group2 m) in
      '(w1, (success, value)) ← _run_function_macro w macroName args (group0 (document w) start end_);
      if success : bool then
        Done (with_document w1
                (set_contents (document w1)
                   (_replace_span (document w1) start end_ (default ""%string value))),
              start)
      else Done (w1, end_)
  | None =>
      Done (logged w (WARNING,
              "Invalid macro: found " +:+ group0 (document w) start end_ +:+ " in "
              +:+ input_path (document w) +:+ ", but no matching macro is defined."),
            end_)
  end.

Fixpoint function_macros_loop (E : Env) (fuel : nat) (w : World) (pointer : nat) : Outcome World :=
  if (pointer <? Py.len (contents (document w)))%nat then
    match _get_next_match (document w) pointer (regex_function_macro E) with
    | (None, _, _) => Done w
    | (Some m, start, end_) =>
        match fuel with
        | 0 => OutOfFuel
        | S fuel' =>
            '(w', pointer') ← function_macro_body w m start end_;
            function_macros_loop E fuel' w' pointer'
        end
    end
  else Done w.

Definition _replace_function_macros (E : Env) (fuel : nat) (w : World) : Outcome World :=
  function_macros_loop E fuel w 0.

Definition apply_macros_fn (E : Env) (fuel : nat) (w : World) : Outcome World :=
  w1 ← _replace_const_macros E fuel w;
  _replace_function_macros E fuel w1.


(** *** Internal links *)

(** One iteration of the loop of [santize_internal_links], after a match;
    the scan pointer becomes [end_] whatever the branch.  [resolve] raises
    [ValueError] and [exists] raises [OSError] where the file system does. *)
Definition santize_body (E : Env) (w : World) (m : Match) (start end_ : nat) : Outcome World :=
  let text := group1 m in
  let link := unquote E (group2 m) in
  match PosixPath.resolve (cwd E) (PosixPath.parent (input_path (document w))) link with
  | None => Raised ValueError
  | Some path =>
      if stat_fails E path then Raised OSError
      else if path_exists E path then
        let reformatted_link := "[" +:+ text +:+ "](<" +:+ link +:+ ">)" in
        Done (with_document w
                (set_contents (document w)
                   (_replace_span (document w) start end_ reformatted_link)))
      else Done w
  end.

Fixpoint santize_loop (E : Env) (fuel : nat) (w : World) (pointer : nat) : Outcome World :=
  if (pointer <? Py.len (contents (document w)))%nat then
    match _get_next_match (document w) pointer (regex_markdown_link E) with
    | (None, _, _) => Done w
    | (Some m, start, end_) =>
        match fuel with
        | 0 => OutOfFuel
        | S fuel' =>
            w' ← santize_body E w m start end_;
            santize_loop E fuel' w' end_
        end
    end
  else Done w.

Definition santize_internal_links_fn (E : Env) (fuel : nat) (w : World) : Outcome World :=
  santize_loop E fuel w 0.

(** *** Target paths *)

Definition move_to_target_dir_relative_fn (E : Env) (w : World) : Outcome World :=
  let s := settings (context w) in
  match target_directory s with
  | Some target_dir =>
      if negb (String.eqb (root_directory s) target_dir) then
        match PosixPath.relpath (cwd E) (root_directory s) (input_path (document w)) with
        | None => Raised ValueError
        | Some rel_path =>
            Done (with_document w
                    (set_target_path (document w) (PosixPath.join target_dir [rel_path])))
        end
      else Done w
  | None => Done w
  end.

(** The list [parts] of [rename_uniquely_for_confluence] once the last
    element is rewritten. *)
Definition confluence_parts (version rel_path basename : string) : list string :=
  let parts := version :: Py.split PosixPath.sep rel_path in
  let parent_dir := PosixPath.dirname (PosixPath.dirname rel_path) in
  if String.eqb (Py.lower basename) "readme.md" || String.eqb basename (parent_dir +:+ ".md")
  then removelast parts ++ [Py.join " - " (removelast parts) +:+ ".md"]
  else removelast parts ++ [Py.join " - " parts +:+ ".md"].

(** A missing version label makes [" - ".join] raise, a missing target
    directory [os.path.join]. *)
Definition rename_uniquely_for_confluence_fn (E : Env) (w : World) : Outcome World :=
  let s := settings (context w) in
  match PosixPath.relpath (cwd E) (root_directory s) (input_path (document w)) with
  | None => Raised ValueError
  | Some rel_path =>
      let rel_path := Py.replace ".md" "" rel_path in
      match version_name s with
      | None => Raised TypeError
      | Some version =>
          let parts :=
            confluence_parts version rel_path (PosixPath.basename (input_path (document w))) in
          match target_directory s with
          | None => Raised TypeError
          | Some target_dir =>
              Done (with_context w
                      {| settings := s; target := Some (PosixPath.join target_dir parts) |})
          end
      end
  end.

(** ** [fnmatch] *)

Module Fnmatch.

(** An element of a translated bracket expression: a character, or the
    unescaped hyphen that [translate] puts between two chunks. *)
Inductive Atom := AChar (c : ascii) | ADash.

(** What [translate] emits for one piece of the pattern. *)
Inductive Tok :=
  | TStar
  | TAny
  | TLit (c : ascii)
  | TNever
  | TSet (negated : bool) (atoms : list Atom).

Fixpoint find_from (c : ascii) (k : nat) (s : string) : option nat :=
  match s with
  | EmptyString => None
  | String a s' =>
      match k with
      | 0 => if Ascii.eqb a c then Some 0 else S <$> find_from c 0 s'
      | S k' => S <$> find_from c k' s'
      end
  end.

(** The [while True] loop that cuts [stuff] at its range hyphens. *)
Fixpoint chunks_go (fuel : nat) (stuff : string) (i k : nat) (chunks : list string) : list string :=
  match fuel with
  | 0 => chunks
  | S fuel' =>
      match find_from "-" k stuff with
      | None =>
          let chunk := Py.drop i stuff in
          if String.eqb chunk "" then
            removelast chunks ++ [List.last chunks ""%string +:+ "-"]
          else chunks ++ [chunk]
      | Some k' => chunks_go fuel' stuff (S k') (k' + 3) (chunks ++ [Py.slice i k' stuff])
      end
  end.

Definition first_char (s : string) : option ascii :=
  match s with String a _ => Some a | EmptyString => None end.

Fixpoint last_char (s : string) : option ascii :=
  match s with
  | EmptyString => None
  | String a EmptyString => Some a
  | String _ s' => last_char s'
  end.

(** Removal of the empty ranges, from the last chunk to the first. *)
Fixpoint squash (chunks : list string) : list string :=
  match chunks with
  | [] => []
  | c :: rest =>
      match squash rest with
      | [] => [c]
      | d :: rest' =>
          match last_char c, first_char d with
          | Some x, Some y =>
              if (nat_of_ascii y <? nat_of_ascii x)%nat
              then (Py.take (Py.len c - 1) c +:+ Py.drop 1 d) :: rest'
              else c :: d :: rest'
          | _, _ => c :: d :: rest'
          end
      end
  end.

Fixpoint chars (s : string) : list Atom :=
  match s with
  | EmptyString => []
  | String a s' => AChar a :: chars s'
  end.

Fixpoint atoms_of (chunks : list string) : list Atom :=
  match chunks with
  | [] => []
  | [c] => chars c
  | c :: rest => chars c ++ ADash :: atoms_of rest
  end.

(** The token for the bracket expression whose inside is [stuff]. *)
Definition set_of (stuff : string) : Tok :=
  let chunks :=
    if Py.contains "-" stuff then
      squash (chunks_go (S (Py.len stuff)) stuff 0 (if Py.startswith "!" stuff then 2 else 1) [])
    else [stuff] in
  let text := Py.join "-" chunks in
  if String.eqb text "" then TNever
  else if String.eqb text "!" then TAny
  else match chunks with
       | String "!" c :: rest => TSet true (atoms_of (c :: rest))
       | _ => TSet false (atoms_of chunks)
       end.

(** The index [j] of the bracket that closes the expression opened just
    before [rest]. *)
Definition closing (rest : string) : option nat :=
  let j := if Py.startswith "!" rest then 1 else 0 in
  let j := if Py.startswith "]" (Py.drop j rest) then S j else j in
  find_from "]" j rest.

Fixpoint translate_go (fuel : nat) (pat : string) : list Tok :=
  match fuel, pat with
  | S fuel', String c rest =>
      if Ascii.eqb c "*" then TStar :: translate_go fuel' rest
      else if Ascii.eqb c "?" then TAny :: translate_go fuel' rest
      else if Ascii.eqb c "[" then
        match closing rest with
        | None => TLit "[" :: translate_go fuel' rest
        | Some j => set_of (Py.take j rest) :: translate_go fuel' (Py.drop (S j) rest)
        end
      else TLit c :: translate_go fuel' rest
  | _, _ => []
  end.

(** [translate], as the list of pieces of the regular expression. *)
Definition translate (pat : string) : list Tok := translate_go (Py.len pat) pat.

(** Membership in a regular-expression character set. *)
Fixpoint in_set (atoms : list Atom) (c : ascii) : bool :=
  match atoms with
  | [] => false
  | AChar lo :: ADash :: AChar hi :: rest =>
      ((nat_of_ascii lo <=? nat_of_ascii c) && (nat_of_ascii c <=? nat_of_ascii hi))%nat
      || in_set rest c
  | AChar x :: rest => Ascii.eqb c x || in_set rest c
  | ADash :: rest => Ascii.eqb c "-" || in_set rest c
  end.

Definition tok_matches (t : Tok) (c : ascii) : bool :=
  match t with
  | TStar | TAny => true
  | TLit x => Ascii.eqb c x
  | TNever => false
  | TSet negated atoms => xorb negated (in_set atoms c)
  end.

(** A match of the whole of [name] against the translated pattern. *)
Fixpoint matches (toks : list Tok) (name : string) : bool :=
  match toks with
  | [] => String.eqb name ""
  | TStar :: toks' =>
      (fix star (s : string) : bool :=
         matches toks' s ||
         match s with
         | String _ s' => star s'
         | EmptyString => false
         end) name
  | t :: toks' =>
      match name with
      | String c name' => tok_matches t c && matches toks' name'
      | EmptyString => false
      end
  end.

(** The pieces of a pattern without special characters. *)
Fixpoint literal (p : string) : list Tok :=
  match p with
  | EmptyString => []
  | String c p' => TLit c :: literal p'
  end.

(** [fnmatch.fnmatch] where [os.path] is [posixpath]. *)
Definition fnmatch (name pat : string) : bool := matches (translate pat) name.

End Fnmatch.

(** ** Rules *)

(** Modelled from the spec: [Passes] of [_consts.py], an enumerated small
    integer whose first value is [FIRST]. *)
Definition Passes : Type := nat.
Definition FIRST : Passes := 0.

Record DocumentRule := {
  function : World -> Outcome World;
  file_filter : string;
  pass_index : Passes
}.

(** [DocumentRule._applies] *)
Definition _applies (r : DocumentRule) (document : Document) : bool :=
  Fnmatch.fnmatch (input_path document) (file_filter r).

(** [DocumentRule.__call__] *)
Definition DocumentRule_call (r : DocumentRule) (w : World) : Outcome World :=
  if _applies r (document w) then function r w else Done w.

(** [document_rule(file_filter, pass_index)(func)] *)
Definition document_rule (file_filter : string) (pass_index : Passes)
    (func : World -> Outcome World) : DocumentRule :=
  {| function := func; file_filter := file_filter; pass_index := pass_index |}.

Definition create_table_of_contents (E : Env) : DocumentRule :=
  document_rule "*.md" FIRST (create_table_of_contents_fn E).

Definition apply_macros (E : Env) (fuel : nat) : DocumentRule :=
  document_rule "*.md" FIRST (apply_macros_fn E fuel).

Definition santize_internal_links (E : Env) (fuel : nat) : DocumentRule :=
  document_rule "*.md" FIRST (santize_internal_links_fn E fuel).

Definition move_to_target_dir_relative (E : Env) : DocumentRule :=
  document_rule "*.*" FIRST (move_to_target_dir_relative_fn E).

Definition rename_uniquely_for_confluence (E : Env) : DocumentRule :=
  document_rule "*.md" FIRST (rename_uniquely_for_confluence_fn E).


(** ** [difflib.unified_diff] *)

Module Difflib.

Inductive Tag := replace | delete | insert | equal.

Definition Opcode : Type := Tag * nat * nat * nat * nat.

Definition is_equal (t : Tag) : bool :=
  match t with equal => true | _ => false end.

(** [SequenceMatcher.__chain_b] with [isjunk=None] and [autojunk=True]: the
    positions of every line of [b], the popular lines of a long [b] dropped. *)
Definition chain_b (b : list string) : gmap string (list nat) :=
  let b2j :=
    fold_left (fun (m : gmap string (list nat)) (ie : nat * string) =>
                 <[ie.2 := default [] (m !! ie.2) ++ [ie.1]]> m)
              (imap pair b) ∅ in
  let n := length b in
  if (200 <=? n)%nat then
    let ntest := n / 100 + 1 in
    filter (fun kv : string * list nat => (length kv.2 <= ntest)%nat) b2j
  else b2j.

Definition Best : Type := nat * nat * nat.

(** The inner loop of [find_longest_match] over the positions of [a[i]]. *)
Fixpoint flm_inner (js : list nat) (i blo bhi : nat) (j2len newj2len : gmap nat nat)
    (best : Best) : gmap nat nat * Best :=
  match js with
  | [] => (newj2len, best)
  | j :: js' =>
      if (j <? blo)%nat then flm_inner js' i blo bhi j2len newj2len best
      else if (bhi <=? j)%nat then (newj2len, best)
      else
        let k := match j with 0 => 0 | S j' => default 0 (j2len !! j') end + 1 in
        flm_inner js' i blo bhi j2len (<[j := k]> newj2len)
                  (if (best.2 <? k)%nat then (i + 1 - k, j + 1 - k, k) else best)
  end.

(** The outer loop, [i] running over [range(alo, ahi)] as [count] steps. *)
Fixpoint flm_outer (a : list string) (b2j : gmap string (list nat)) (count i blo bhi : nat)
    (j2len : gmap nat nat) (best : Best) : Best :=
  match count with
  | 0 => best
  | S count' =>
      let js := default [] (x ← a !! i; b2j !! x) in
      let (newj2len, best') := flm_inner js i blo bhi j2len ∅ best in
      flm_outer a b2j count' (S i) blo bhi newj2len best'
  end.

Definition same_line (a b : list string) (i j : nat) : bool :=
  match a !! i, b !! j with
  | Some x, Some y => String.eqb x y
  | _, _ => false
  end.

Fixpoint extend_left (fuel : nat) (a b : list string) (alo blo : nat) (best : Best) : Best :=
  match fuel with
  | 0 => best
  | S fuel' =>
      let '(besti, bestj, bestsize) := best in
      if (alo <? besti)%nat && (blo <? bestj)%nat && same_line a b (besti - 1) (bestj - 1)
      then extend_left fuel' a b alo blo (besti - 1, bestj - 1, bestsize + 1)
      else best
  end.

Fixpoint extend_right (fuel : nat) (a b : list string) (ahi bhi : nat) (best : Best) : Best :=
  match fuel with
  | 0 => best
  | S fuel' =>
      let '(besti, bestj, bestsize) := best in
      if (besti + bestsize <? ahi)%nat && (bestj + bestsize <? bhi)%nat
         && same_line a b (besti + bestsize) (bestj + bestsize)
      then extend_right fuel' a b ahi bhi (besti, bestj, bestsize + 1)
      else best
  end.

(** [find_longest_match]; without junk the two loops over junk lines never
    run. *)
Definition find_longest_match (a b : list string) (b2j : gmap string (list nat))
    (alo ahi blo bhi : nat) : Best :=
  let best := flm_outer a b2j (ahi - alo) alo blo bhi ∅ (alo, blo, 0) in
  let best := extend_left (length a) a b alo blo best in
  extend_right (length a) a b ahi bhi best.

(** The blocks that [get_matching_blocks] collects from its queue, in the
    order its [sort] leaves them. *)
Fixpoint blocks (fuel : nat) (a b : list string) (b2j : gmap string (list nat))
    (alo ahi blo bhi : nat) : list Best :=
  match fuel with
  | 0 => []
  | S fuel' =>
      let '(i, j, k) := find_longest_match a b b2j alo ahi blo bhi in
      if (k =? 0)%nat then []
      else
        (if (alo <? i)%nat && (blo <? j)%nat then blocks fuel' a b b2j alo i blo j else [])
        ++ (i, j, k)
        :: (if (i + k <? ahi)%nat && (j + k <? bhi)%nat
            then blocks fuel' a b b2j (i + k) ahi (j + k) bhi else [])
  end.

(** The loop that merges adjacent blocks. *)
Fixpoint non_adjacent (bs : list Best) (cur : Best) : list Best :=
  let '(i1, j1, k1) := cur in
  match bs with
  | [] => if (k1 =? 0)%nat then [] else [cur]
  | (i2, j2, k2) :: bs' =>
      if (i1 + k1 =? i2)%nat && (j1 + k1 =? j2)%nat
      then non_adjacent bs' (i1, j1, k1 + k2)
      else (if (k1 =? 0)%nat then [] else [cur]) ++ non_adjacent bs' (i2, j2, k2)
  end.

Definition get_matching_blocks (a b : list string) : list Best :=
  let la := length a in
  let lb := length b in
  non_adjacent (blocks (S (la + lb)) a b (chain_b b) 0 la 0 lb) (0, 0, 0) ++ [(la, lb, 0)].

Fixpoint opcodes_go (bs : list Best) (i j : nat) : list Opcode :=
  match bs with
  | [] => []
  | (ai, bj, size) :: bs' =>
      (if (i <? ai)%nat && (j <? bj)%nat then [(replace, i, ai, j, bj)]
       else if (i <? ai)%nat then [(delete, i, ai, j, bj)]
       else if (j <? bj)%nat then [(insert, i, ai, j, bj)]
       else [])
      ++ (if (size =? 0)%nat then [] else [(equal, ai, ai + size, bj, bj + size)])
      ++ opcodes_go bs' (ai + size) (bj + size)
  end.

Definition get_opcodes (a b : list string) : list Opcode :=
  opcodes_go (get_matching_blocks a b) 0 0.

Definition trim_first (n : nat) (c : Opcode) : Opcode :=
  let '(tag, i1, i2, j1, j2) := c in
  if is_equal tag then (tag, Nat.max i1 (i2 - n), i2, Nat.max j1 (j2 - n), j2) else c.

Definition trim_last (n : nat) (c : Opcode) : Opcode :=
  let '(tag, i1, i2, j1, j2) := c in
  if is_equal tag then (tag, i1, Nat.min i2 (i1 + n), j1, Nat.min j2 (j1 + n)) else c.

(** The loop of [get_grouped_opcodes], [group] being the group under
    construction. *)
Fixpoint grouped_go (n : nat) (codes : list Opcode) (group : list Opcode) : list (list Opcode) :=
  match codes with
  | [] =>
      match group with
      | [] => []
      | [(equal, _, _, _, _)] => []
      | _ => [group]
      end
  | (tag, i1, i2, j1, j2) :: codes' =>
      if is_equal tag && (n + n <? i2 - i1)%nat then
        (group ++ [(tag, i1, Nat.min i2 (i1 + n), j1, Nat.min j2 (j1 + n))])
        :: grouped_go n codes' [(tag, Nat.max i1 (i2 - n), i2, Nat.max j1 (j2 - n), j2)]
      else grouped_go n codes' (group ++ [(tag, i1, i2, j1, j2)])
  end.

Definition get_grouped_opcodes (a b : list string) (n : nat) : list (list Opcode) :=
  let codes := match get_opcodes a b with [] => [(equal, 0, 1, 0, 1)] | cs => cs end in
  let codes := match codes with c :: cs => trim_first n c :: cs | [] => [] end in
  let codes := removelast codes ++ match List.last (map Some codes) None with
                                   | Some c => [trim_last n c]
                                   | None => []
                                   end in
  grouped_go n codes [].

Definition _format_range_unified (start stop : nat) : string :=
  let beginning := start + 1 in
  let length := stop - start in
  if (length =? 1)%nat then Py.str_of_nat beginning
  else
    let beginning := if (length =? 0)%nat then beginning - 1 else beginning in
    Py.str_of_nat beginning +:+ "," +:+ Py.str_of_nat length.

Definition lines_of (prefix : string) (l : list string) (i1 i2 : nat) : list string :=
  map (fun line => prefix +:+ line) (firstn (i2 - i1) (skipn i1 l)).

Definition opcode_lines (a b : list string) (c : Opcode) : list string :=
  let '(tag, i1, i2, j1, j2) := c in
  match tag with
  | equal => lines_of " " a i1 i2
  | replace => lines_of "-" a i1 i2 ++ lines_of "+" b j1 j2
  | delete => lines_of "-" a i1 i2
  | insert => lines_of "+" b j1 j2
  end.

Definition group_lines (a b : list string) (group : list Opcode) : list string :=
  match group, List.last (map Some group) None with
  | first :: _, Some last =>
      let '(_, f1, _, f3, _) := first in
      let '(_, _, l2, _, l4) := last in
      ("@@ -" +:+ _format_range_unified f1 l2 +:+ " +" +:+ _format_range_unified f3 l4
       +:+ " @@" +:+ String "010" "")
      :: flat_map (opcode_lines a b) group
  | _, _ => []
  end.

(** The lines that [unified_diff] yields for the opcodes, without the file
    headers and the hunk headers. *)
Definition body_lines (a b : list string) : list string :=
  flat_map (fun group => flat_map (opcode_lines a b) group) (get_grouped_opcodes a b 3).

(** [unified_diff(a, b)] with its default arguments. *)
Definition unified_diff (a b : list string) : list string :=
  match get_grouped_opcodes a b 3 with
  | [] => []
  | groups =>
      ("--- " +:+ String "010" "") :: ("+++ " +:+ String "010" "")
      :: flat_map (group_lines a b) groups
  end.

End Difflib.

(** ** [Document.changes] *)

Definition is_header (text : string) : bool :=
  let p := Py.take 3 text in
  String.eqb p "+++" || String.eqb p "---" || String.eqb p "@@ ".

Definition changes (d : Document) : string :=
  if negb (unchanged d) then
    let a := Py.split "010" (original_contents d) in
    let b := Py.split "010" (contents d) in
    fold_left (fun result text => if negb (is_header text) then result +:+ text +:+ NL else result)
              (Difflib.unified_diff a b) ""%string
  else ""%string.


(** ** The missing constants, from the specification *)

Module SpecRegex.

Fixpoint span_while (p : ascii -> bool) (s : string) : string * string :=
  match s with
  | String a s' =>
      if p a then let (x, r) := span_while p s' in (String a x, r)
      else (""%string, s)
  | EmptyString => (""%string, ""%string)
  end.

Definition is_word (c : ascii) : bool :=
  let n := nat_of_ascii c in
  ((48 <=? n) && (n <=? 57) || (65 <=? n) && (n <=? 90) || (97 <=? n) && (n <=? 122)
   || (n =? 95))%nat.

(** A match anchored at the start of the text: its length and groups. *)
Definition Here : Type := string -> option (nat * string * string).

(** Modelled from the spec: the constant-macro pattern of [_consts.py], a
    token of the form [${name}] with a non-empty name of word characters. *)
Definition const_here : Here := fun s =>
  if Py.startswith "${" s then
    let (name, r) := span_while is_word (Py.drop 2 s) in
    if Py.startswith "}" r && negb (String.eqb name "")
    then Some (Py.len name + 3, name, ""%string)
    else None
  else None.

(** Modelled from the spec: the function-macro pattern of [_consts.py], a
    call-form token [${name(arg1, arg2, ...)}] whose argument list may be
    empty. *)
Definition function_here : Here := fun s =>
  if Py.startswith "${" s then
    let (name, r) := span_while is_word (Py.drop 2 s) in
    if Py.startswith "(" r && negb (String.eqb name "") then
      let (args, r') := span_while (fun c => negb (Ascii.eqb c ")")) (Py.drop 1 r) in
      if Py.startswith ")}" r' then Some (Py.len name + Py.len args + 5, name, args)
      else None
    else None
  else None.

(** Modelled from the spec: the link pattern of [_consts.py], markdown link
    syntax [[text](target)] whose target may be wrapped in angle brackets. *)
Definition link_here : Here := fun s =>
  if Py.startswith "[" s then
    let (text, r) := span_while (fun c => negb (Ascii.eqb c "]")) (Py.drop 1 s) in
    if Py.startswith "](" r then
      let r1 := Py.drop 2 r in
      let lt := if Py.startswith "<" r1 then 1 else 0 in
      let (link, r2) :=
        span_while (fun c => negb (Ascii.eqb c ">") && negb (Ascii.eqb c ")")) (Py.drop lt r1) in
      let gt := if Py.startswith ">" r2 then 1 else 0 in
      if Py.startswith ")" (Py.drop gt r2)
      then Some (Py.len text + Py.len link + lt + gt + 4, text, link)
      else None
    else None
  else None.

(** [re.search]: the leftmost position where the anchored match succeeds. *)
Fixpoint search_from (here : Here) (pos : nat) (s : string) : option Match :=
  match here s with
  | Some (n, g1, g2) => Some {| span := (pos, pos + n); group1 := g1; group2 := g2 |}
  | None =>
      match s with
      | String _ s' => search_from here (S pos) s'
      | EmptyString => None
      end
  end.

Definition search (here : Here) : Pattern := search_from here 0.

(** Modelled from the spec: [format_markdown_link] of [_utils.py], a link
    with the given text and target. *)
Definition markdown_link (text link : string) : string :=
  "[" +:+ text +:+ "](" +:+ link +:+ ")".

(** The limits of a Linux file system: a name of more than 255 characters or
    a path of more than 4095 makes [os.stat] fail with [ENAMETOOLONG]. *)
Definition too_long (p : string) : bool :=
  (4095 <? Py.len p)%nat
  || existsb (fun name => (255 <? Py.len name)%nat) (Py.split "/" p).

(** The environment of a process run in [cwd] on a file system on which
    exactly the paths of [files] exist, directories included. *)
Definition env (cwd : string) (files : list string) : Env :=
  {| regex_const_macro := search const_here;
     regex_function_macro := search function_here;
     regex_markdown_link := search link_here;
     format_markdown_link := markdown_link;
     unquote := UrlParse.unquote;
     cwd := cwd;
     path_exists := fun p => existsb (String.eqb p) files;
     stat_fails := too_long |}.

End SpecRegex.

(** ** The specification's wording, for comparison *)

(** The number of leading [#] characters of a heading. *)
Fixpoint leading_hashes (line : string) : nat :=
  match line with
  | String a line' => if Ascii.eqb a "#" then S (leading_hashes line') else 0
  | EmptyString => 0
  end.

(** The heading lines among [lines]: those that start with [#] once trimmed. *)
Definition toc_headings (lines : list string) : list string :=
  List.filter (Py.startswith "#") (map Py.strip lines).

(** Twice the zero-based depth of a heading. *)
Definition toc_indent (heading : string) : nat := 2 * (leading_hashes heading - 1).

Definition toc_title (heading : string) : string := Py.strip (Py.lstrip_char "#" heading).

(** The pair of indent and text that a heading contributes. *)
Definition toc_pair (E : Env) (heading : string) : nat * string :=
  (toc_indent heading,
   " - " +:+ format_markdown_link E (toc_title heading) ("#" +:+ toc_title heading)).


(** Every line followed by a newline. *)
Definition newline_terminated (l : list string) : string :=
  fold_right (fun text r => text +:+ NL +:+ r) ""%string l.

(** The diff with exactly its first three lines, the header of a one-hunk
    diff, taken away and every other line followed by a newline. *)
Definition changes_less_three_headers (d : Document) : string :=
  if unchanged d then ""%string
  else
    newline_terminated
      (skipn 3 (Difflib.unified_diff (Py.split "010" (original_contents d))
                                     (Py.split "010" (contents d)))).

(** The four kinds of line of a unified diff of [a] and [b], and whether
    [changes] drops a line of that kind. *)
Definition diff_line_kind (a b : list string) (text : string) : Prop :=
  (is_header text = true /\
   (text = "--- " +:+ NL \/ text = "+++ " +:+ NL \/ Py.startswith "@@ -" text = true)) \/
  (exists x, text = " " +:+ x /\ is_header text = false) \/
  (exists x, In x a /\ text = "-" +:+ x /\ is_header text = Py.startswith "--" x) \/
  (exists x, In x b /\ text = "+" +:+ x /\ is_header text = Py.startswith "++" x).

Definition all_chars (p : ascii -> bool) (s : string) : bool :=
  String.eqb (Py.lstrip_by p s) "".


(** ** Sample data *)

Module Sample.

(** A process run in [/work]; the disk holds the two files of the
    repository's link tests and their directories. *)
Definition E : Env :=
  SpecRegex.env "/work"
    ["/"; "/work"; "/docs"; "/docs/sub dir"; "/docs/sub dir/relative - file.md";
     "/docs/test dir"; "/docs/test dir/test.md"]%string.

Definition upper_char (c : ascii) : ascii :=
  let n := nat_of_ascii c in
  if ((97 <=? n) && (n <=? 122))%nat then ascii_of_nat (n - 32) else c.

Fixpoint upper (s : string) : string :=
  match s with
  | EmptyString => ""%string
  | String a s' => String (upper_char a) (upper s')
  end.

(** [def capitalize(s): return s.upper()] on unaccented text. *)
Definition capitalize : Callable :=
  py_function "(s)" 1 (fun args => match args with [s] => Some (upper s) | _ => None end).

(** The bound method ["Hello {}!".format]: without an argument it raises
    [IndexError], and it has no signature. *)
Definition greet : Callable :=
  {| inspect_signature := None;
     call := fun args => match args with
                         | a :: _ => Some ("Hello " +:+ a +:+ "!")
                         | [] => None
                         end |}.

Definition table : gmap string Macro :=
  <["author"%string := MConst "hello"]>
    (<["capitalize"%string := MCallable capitalize]>
       (<["greet"%string := MCallable greet]> ∅)).

Definition world (root : string) (target_dir version : option string) (path data : string)
  : World :=
  {| context :=
       {| settings := {| root_directory := root; target_directory := target_dir;
                         version_name := version; macros := table |};
          target := None |};
     document := Document_init path data;
     log := [] |}.

Definition two_links : string :=
  "[one](../sub%20dir/relative%20-%20file.md) [two](../sub%20dir/relative%20-%20file.md)".

End Sample.

(** ** Rule catalogues *)

(** Modelled from the spec: [DeploymentStyle] of [_consts.py], with the three
    members that [GetRulesForStyle] names. *)
Inductive DeploymentStyle := GITHUB | CONFLUENCE | CUSTOM.

Definition GetRulesForStyle (E : Env) (fuel : nat) (style : DeploymentStyle)
  : list DocumentRule :=
  match style with
  | GITHUB => [santize_internal_links E fuel; move_to_target_dir_relative E]
  | CONFLUENCE =>
      [create_table_of_contents E; apply_macros E fuel; santize_internal_links E fuel;
       rename_uniquely_for_confluence E]
  | CUSTOM => []
  end.

(** ** Vocabulary of the further properties *)

(** [s.count(c)] for a one-character [c]. *)
Fixpoint count_char (c : ascii) (s : string) : nat :=
  match s with
  | EmptyString => 0
  | String a s' => (if Ascii.eqb a c then 1 else 0) + count_char c s'
  end.

(** Two states of a document that differ in the contents at most. *)
Definition same_but_contents (d d' : Document) : Prop :=
  input_path d' = input_path d /\ target_path d' = target_path d /\
  original_contents d' = original_contents d.

(** What a rule that rewrites text may do to the world: change the
    document's contents and add records to the log. *)
Definition text_frame (w w' : World) : Prop :=
  context w' = context w /\ same_but_contents (document w) (document w') /\
  exists records, log w' = log w ++ records.

(** The table binds some name to a callable without a signature. *)
Definition unsigned_callable (w : World) : Prop :=
  exists name f,
    macros (settings (context w)) !! name = Some (MCallable f) /\ inspect_signature f = None.

(** A pattern that never matches the empty string at the very start of the
    searched text: a match ends after at least one character. *)
Definition advances (regex : Pattern) : Prop :=
  forall s m, regex s = Some m -> 0 < snd (span m).

(** Every link that the scan can meet in the document, from any position,
    has a target that resolves to a path that the file system can test and
    does not hold. *)
Definition targets_missing (E : Env) (w : World) : Prop :=
  forall pointer m,
    pointer < Py.len (contents (document w)) ->
    regex_markdown_link E (Py.drop pointer (contents (document w))) = Some m ->
    exists path,
      PosixPath.resolve (cwd E) (PosixPath.parent (input_path (document w)))
        (unquote E (group2 m)) = Some path /\
      stat_fails E path = false /\ path_exists E path = false.

(** Further sample data. *)
Module Fixture.

Definition no_macros (path data : string) : World :=
  {| context :=
       {| settings := {| root_directory := "/docs"; target_directory := None;
                         version_name := None; macros := ∅ |};
          target := None |};
     document := Document_init path data;
     log := [] |}.

(** The table of a macro that expands to its own token. *)
Definition looping (data : string) : World :=
  {| context :=
       {| settings := {| root_directory := "/docs"; target_directory := None;
                         version_name := None;
                         macros := <["again"%string := MConst "${again}"]> ∅ |};
          target := None |};
     document := Document_init "/docs/a.md" data;
     log := [] |}.

(** A disk without files. *)
Definition bare : Env := SpecRegex.env "/work" [].

End Fixture.

(** * Properties *)

(** ** Strings *)

Lemma split_not_nil (c : ascii) (s : string) : Py.split c s <> [].
Proof.
  induction s as [|a s IH]; simpl; [discriminate|].
  destruct (Ascii.eqb a c); [discriminate|].
  destruct (Py.split c s); discriminate.
Qed.

Lemma lstrip_by_empty (p : ascii -> bool) (a : ascii) (s : string) :
  Py.lstrip_by p (String a s) = ""%string -> p a = true /\ Py.lstrip_by p s = ""%string.
Proof.
  simpl. destruct (p a); [auto | discriminate].
Qed.

Lemma split_blank (s : string) :
  Py.lstrip_by Py.isspace s = ""%string -> Py.split "," s = [s].
Proof.
  induction s as [|a s IH]; intros H; [reflexivity|].
  apply lstrip_by_empty in H as [Ha Hs].
  simpl. destruct (Ascii.eqb_spec a ",") as [->|_]; [discriminate Ha|].
  rewrite (IH Hs). reflexivity.
Qed.

Lemma strip_blank (s : string) :
  Py.lstrip_by Py.isspace s = ""%string -> Py.strip s = ""%string.
Proof.
  intros H. unfold Py.strip. rewrite H. reflexivity.
Qed.

Lemma drop_take_app (n : nat) (text rest : string) :
  n <= Py.len text -> Py.drop n (Py.take n text +:+ rest) = rest.
Proof.
  revert text. induction n as [|n IH]; intros text Hn.
  - now destruct text.
  - destruct text as [|c text]; [inversion Hn|].
    apply (IH text). unfold Py.len in *. simpl in Hn. lia.
Qed.

(** ** Argument lists *)

Example _extract_args_two : _extract_args "hi, there" = ["hi"; "there"]%string.
Proof. reflexivity. Qed.

(** C10: the argument parser returns no argument exactly for the empty
    argument string; a non-empty string made of whitespace only yields one
    argument, the empty string. *)
Theorem extract_args_blank (value : string) :
  (_extract_args value = [] <-> value = ""%string) /\
  (value <> ""%string -> all_chars Py.isspace value = true ->
   _extract_args value = [""%string]).
Proof.
  split.
  - split; [|intros ->; reflexivity].
    destruct value as [|a v]; [reflexivity|].
    unfold _extract_args. intros H. apply map_eq_nil in H.
    now apply split_not_nil in H.
  - intros Hne Hall. unfold all_chars in Hall. apply String.eqb_eq in Hall.
    destruct value as [|a v]; [congruence|].
    unfold _extract_args. rewrite (split_blank _ Hall). simpl map.
    now rewrite (strip_blank _ Hall).
Qed.

Lemma extract_args_blank_witness : _extract_args " " = [""%string].
Proof.
  apply (extract_args_blank " "); [discriminate | reflexivity].
Defined.

(** ** The macro engine *)

Section MacroEngine.

Variable E : Env.


(** After a replacement at [start], the text from the new scan pointer on
    begins with the replacement: it is scanned again. *)
Lemma replaced_span_rescanned (document : Document) (start end_ : nat) (value : string) :
  start <= Py.len (contents document) ->
  Py.drop start (_replace_span document start end_ value) =
  value +:+ Py.drop end_ (contents document).
Proof.
  intros H. unfold _replace_span. cbn [Py.join].
  change ("" +:+ ?x) with x. now apply drop_take_app.
Qed.

(** One iteration of the function-macro pass on a matched call whose name is
    bound to a callable with a signature.  When the call raises, the
    document is left as it is, an error is recorded and the scan resumes
    past the end of the match; when it returns, the value replaces the
    matched span and the scan resumes at its start.  A call of a Python
    function with the wrong number of arguments raises. *)
Lemma function_macro_iteration (fuel : nat) (w : World) (pointer : nat) (m : Match)
    (f : Callable) :
  (pointer <? Py.len (contents (document w)))%nat = true ->
  regex_function_macro E (Py.drop pointer (contents (document w))) = Some m ->
  macros (settings (context w)) !! group1 m = Some (MCallable f) ->
  is_Some (inspect_signature f) ->
  let text := contents (document w) in
  let start := (fst (span m) + pointer)%nat in
  let end_ := (snd (span m) + pointer)%nat in
  match call f (_extract_args (group2 m)) with
  | None =>
      exists w' msg,
        function_macros_loop E (S fuel) w pointer = function_macros_loop E fuel w' end_ /\
        document w' = document w /\ context w' = context w /\
        log w' = log w ++ [(ERROR, msg)]
  | Some value =>
      function_macros_loop E (S fuel) w pointer =
      function_macros_loop E fuel
        (with_document w
           (set_contents (document w) (Py.take start text +:+ value +:+ Py.drop end_ text)))
        start
  end /\
  (forall sig n body args,
     length args <> n -> call (py_function sig n body) args = None).
Proof.
  intros Hlt Hm Hf [[sig n] Hsig] text start end_. split.
  - cbn [function_macros_loop]. rewrite Hlt.
    unfold _get_next_match. rewrite Hm.
    unfold function_macro_body, _run_function_macro. rewrite Hf.
    destruct (call f (_extract_args (group2 m))) as [value|].
    + reflexivity.
    + rewrite Hsig.
      destruct (negb _); (eexists _, _; split; [reflexivity|]; repeat split).
  - intros sig' n' body args Hn. simpl.
    destruct (Nat.eqb_spec (length args) n'); [contradiction | reflexivity].
Qed.

(** When the call raises and the callable has no signature, the handler
    itself raises and the pass stops there. *)
Lemma function_macro_without_signature (fuel : nat) (w : World) (pointer : nat) (m : Match)
    (f : Callable) :
  (pointer <? Py.len (contents (document w)))%nat = true ->
  regex_function_macro E (Py.drop pointer (contents (document w))) = Some m ->
  macros (settings (context w)) !! group1 m = Some (MCallable f) ->
  inspect_signature f = None ->
  call f (_extract_args (group2 m)) = None ->
  function_macros_loop E (S fuel) w pointer = Raised ValueError.
Proof.
  intros Hlt Hm Hf Hsig Hcall.
  cbn [function_macros_loop]. rewrite Hlt.
  unfold _get_next_match. rewrite Hm.
  unfold function_macro_body, _run_function_macro. rewrite Hf, Hcall, Hsig.
  reflexivity.
Qed.

End MacroEngine.


Example function_macro_arity_mismatch :
  exists w' msg,
    function_macros_loop Sample.E 1
      (Sample.world "/docs" None None "/docs/a.md" "${capitalize(hi,there)}") 0 =
    function_macros_loop Sample.E 0 w' 23 /\
    document w' = Document_init "/docs/a.md" "${capitalize(hi,there)}" /\
    log w' = [(ERROR, msg)].
Proof.
  destruct (function_macro_iteration Sample.E 0
              (Sample.world "/docs" None None "/docs/a.md" "${capitalize(hi,there)}") 0
              {| span := (0, 23); group1 := "capitalize"; group2 := "hi,there" |}
              Sample.capitalize eq_refl eq_refl eq_refl (mk_is_Some _ _ eq_refl))
    as [(w' & msg & H1 & H2 & _ & H3) _].
  exists w', msg. repeat split; assumption.
Qed.

(** C4: an exception raised by a callable is not always turned into a
    recorded error.  For the macro ["Hello {}!".format], which has no
    signature, the call [${greet()}] raises; the handler then raises
    [ValueError] while it reads the signature, so the rule raises, no error
    is recorded and the scan does not go on. *)
Theorem function_macro_handler_fails :
  call Sample.greet (_extract_args "") = None /\
  DocumentRule_call (apply_macros Sample.E 5)
    (Sample.world "/docs" None None "/docs/a.md" "${greet()}") = Raised ValueError.
Proof.
  split; [reflexivity | vm_compute; reflexivity].
Qed.

(** The examples of the specification's section 8. *)

Example apply_macros_author :
  contents <$> (document <$> DocumentRule_call (apply_macros Sample.E 5)
                               (Sample.world "/docs" None None "/docs/a.md" "${author}"))
  = Done "hello"%string.
Proof. vm_compute. reflexivity. Qed.

Example apply_macros_capitalize :
  contents <$> (document <$> DocumentRule_call (apply_macros Sample.E 5)
                               (Sample.world "/docs" None None "/docs/a.md" "${capitalize(hi)}"))
  = Done "HI"%string.
Proof. vm_compute. reflexivity. Qed.

Example santize_external_link :
  contents <$> (document <$> DocumentRule_call (santize_internal_links Sample.E 5)
                               (Sample.world "/docs" None None "/docs/test.md"
                                  "[link](https://www.google.com)"))
  = Done "[link](https://www.google.com)"%string.
Proof. vm_compute. reflexivity. Qed.

(** C5: the link sanitizer does not rewrite every link whose target exists,
    and it does not leave every other link in place.  In the document of two
    percent-encoded links the second one is a link for the pattern and its
    decoded target resolves to a file that exists, yet a run returns with
    that link as it was: once the first link has shrunk, the scan resumes
    inside the second.  On a link whose target decodes to the NUL character
    the rule raises [ValueError]. *)
Theorem santize_misses_links :
  regex_markdown_link Sample.E (Py.drop 43 Sample.two_links) =
    Some {| span := (0, 42); group1 := "two";
            group2 := "../sub%20dir/relative%20-%20file.md" |} /\
  PosixPath.resolve (cwd Sample.E) (PosixPath.parent "/docs/test dir/test.md")
    (unquote Sample.E "../sub%20dir/relative%20-%20file.md") =
    Some "/docs/sub dir/relative - file.md"%string /\
  path_exists Sample.E "/docs/sub dir/relative - file.md" = true /\
  (exists w1,
     DocumentRule_call (santize_internal_links Sample.E 5)
       (Sample.world "/docs" None None "/docs/test dir/test.md" Sample.two_links) = Done w1 /\
     contents (document w1) =
       "[one](<../sub dir/relative - file.md>) [two](../sub%20dir/relative%20-%20file.md)"%string) /\
  DocumentRule_call (santize_internal_links Sample.E 5)
    (Sample.world "/docs" None None "/docs/test dir/test.md" "[x](%00)") = Raised ValueError.
Proof.
  split; [vm_compute; reflexivity|]. split; [vm_compute; reflexivity|].
  split; [vm_compute; reflexivity|].
  split; [eexists; split; [vm_compute; reflexivity | reflexivity]|].
  vm_compute. reflexivity.
Qed.

(** C6: link sanitization is not idempotent.  With two percent-encoded links
    to an existing file, the first run rewrites the first link only: the
    scan pointer is the end of the match in the text before the rewriting,
    which lies beyond the start of the second link once the first one has
    shrunk.  The second run then rewrites the second link. *)
Theorem santize_twice_differs :
  exists w1 w2,
    DocumentRule_call (santize_internal_links Sample.E 5)
      (Sample.world "/docs" None None "/docs/test dir/test.md" Sample.two_links) = Done w1 /\
    DocumentRule_call (santize_internal_links Sample.E 5) w1 = Done w2 /\
    contents (document w1) =
      "[one](<../sub dir/relative - file.md>) [two](../sub%20dir/relative%20-%20file.md)"%string /\
    contents (document w2) =
      "[one](<../sub dir/relative - file.md>) [two](<../sub dir/relative - file.md>)"%string /\
    contents (document w2) <> contents (document w1).
Proof.
  eexists _, _. split; [vm_compute; reflexivity|].
  split; [vm_compute; reflexivity|].
  split; [reflexivity|]. split; [reflexivity|]. discriminate.
Qed.

(** ** Target paths *)

Lemma move_to_target_dir_relative_noop (E : Env) (w : World) :
  target_directory (settings (context w)) = None \/
  target_directory (settings (context w)) = Some (root_directory (settings (context w))) ->
  move_to_target_dir_relative_fn E w = Done w.
Proof.
  unfold move_to_target_dir_relative_fn. intros [-> | ->]; [reflexivity|].
  now rewrite String.eqb_refl.
Qed.

(** C1: the directory-mirroring rule takes the root relative to the
    document, not the document relative to the root.  For the document
    [/docs/a/b.md] under the root [/docs] and the target directory [/out],
    the path of the document relative to the root is [a/b.md], and the rule
    sets the target path to [/out/../..]. *)
Theorem move_to_target_dir_relative_swapped :
  PosixPath.relpath "/work" "/docs/a/b.md" "/docs" = Some "a/b.md"%string /\
  exists w',
    DocumentRule_call (move_to_target_dir_relative Sample.E)
      (Sample.world "/docs" (Some "/out"%string) None "/docs/a/b.md" "") = Done w' /\
    target_path (document w') = "/out/../.."%string /\
    target_path (document w') <> PosixPath.join "/out" ["a/b.md"%string].
Proof.
  split; [vm_compute; reflexivity|].
  eexists. split; [vm_compute; reflexivity|].
  split; [reflexivity|]. vm_compute. discriminate.
Qed.

(** C2: the renaming rule does not rename.  For the docstring's page
    [something/else/aswell.md] under the root [/docs], with the label
    [develop] and the target directory [/out], the document's target path is
    still its input path after the rule; the path that the rule computes,
    and leaves on the context, is built from the root taken relative to the
    document: [/out/develop/../../develop - .. - .. - ...md], which names
    neither a file directly under [/out] nor the docstring's
    [develop/something/else/something - else - aswell.md].  The two pages
    [a/x.md] and [b/y.md] get the same computed path,
    [/out/develop/../develop - .. - ...md]. *)
Theorem rename_uniquely_not_flat :
  (exists w' computed,
     DocumentRule_call (rename_uniquely_for_confluence Sample.E)
       (Sample.world "/docs" (Some "/out"%string) (Some "develop"%string)
          "/docs/something/else/aswell.md" "") = Done w' /\
     target_path (document w') = "/docs/something/else/aswell.md"%string /\
     PosixPath.dirname (target_path (document w')) <> "/out"%string /\
     target (context w') = Some computed /\
     computed = "/out/develop/../../develop - .. - .. - ...md"%string /\
     computed <> "/out/develop - something - else - aswell.md"%string /\
     computed <> "/out/develop/something/else/something - else - aswell.md"%string /\
     PosixPath.dirname computed <> "/out"%string) /\
  (exists wx wy,
     DocumentRule_call (rename_uniquely_for_confluence Sample.E)
       (Sample.world "/docs" (Some "/out"%string) (Some "develop"%string)
          "/docs/a/x.md" "") = Done wx /\
     DocumentRule_call (rename_uniquely_for_confluence Sample.E)
       (Sample.world "/docs" (Some "/out"%string) (Some "develop"%string)
          "/docs/b/y.md" "") = Done wy /\
     target (context wx) = Some "/out/develop/../develop - .. - ...md"%string /\
     target (context wy) = Some "/out/develop/../develop - .. - ...md"%string).
Proof.
  split.
  - eexists _, _. split; [vm_compute; reflexivity|].
    split; [reflexivity|]. split; [vm_compute; discriminate|].
    split; [reflexivity|]. split; [reflexivity|].
    split; [discriminate|]. split; [discriminate|]. vm_compute. discriminate.
  - eexists _, _. split; [vm_compute; reflexivity|].
    split; [vm_compute; reflexivity|]. split; reflexivity.
Qed.

(** ** Change reports *)

Lemma append_assoc (a b c : string) : (a +:+ b) +:+ c = a +:+ (b +:+ c).
Proof.
  induction a as [|x a IH]; [reflexivity|].
  change (String x ((a +:+ b) +:+ c) = String x (a +:+ (b +:+ c))). now f_equal.
Qed.

Lemma append_empty_r (a : string) : a +:+ "" = a.
Proof.
  induction a as [|x a IH]; [reflexivity|].
  change (String x (a +:+ "") = String x a). now f_equal.
Qed.

Lemma prefix_take (p s : string) :
  String.prefix p s = String.eqb (Py.take (String.length p) s) p.
Proof.
  revert s. induction p as [|x p IH]; intros s.
  - destruct s; reflexivity.
  - destruct s as [|y s]; [reflexivity|]. simpl.
    destruct (ascii_dec x y) as [->|Hne].
    + rewrite Ascii.eqb_refl. apply IH.
    + apply not_eq_sym, Ascii.eqb_neq in Hne. now rewrite Hne.
Qed.

Lemma startswith_app (p x : string) : Py.startswith p (p +:+ x) = true.
Proof.
  unfold Py.startswith. induction p as [|c p IH]; [now destruct x|].
  change (String c p +:+ x) with (String c (p +:+ x)). simpl.
  destruct (ascii_dec c c); [exact IH | contradiction].
Qed.

Lemma is_header_context (x : string) : is_header (" " +:+ x) = false.
Proof. reflexivity. Qed.

Lemma is_header_removed (x : string) : is_header ("-" +:+ x) = Py.startswith "--" x.
Proof.
  change ("-" +:+ x) with (String "-" x).
  unfold Py.startswith. rewrite prefix_take. unfold is_header.
  change (Py.take 3 (String "-" x)) with (String "-" (Py.take 2 x)).
  change (String.length "--") with 2.
  generalize (Py.take 2 x). intros t. cbn.
  now rewrite orb_false_r.
Qed.

Lemma is_header_added (x : string) : is_header ("+" +:+ x) = Py.startswith "++" x.
Proof.
  change ("+" +:+ x) with (String "+" x).
  unfold Py.startswith. rewrite prefix_take. unfold is_header.
  change (Py.take 3 (String "+" x)) with (String "+" (Py.take 2 x)).
  change (String.length "++") with 2.
  generalize (Py.take 2 x). intros t. cbn.
  now rewrite !orb_false_r.
Qed.

Lemma changes_fold (l : list string) (acc : string) :
  fold_left (fun result text => if negb (is_header text) then result +:+ text +:+ NL else result)
            l acc
  = acc +:+ newline_terminated (List.filter (fun text => negb (is_header text)) l).
Proof.
  revert acc. induction l as [|t l IH]; intros acc; simpl.
  - now rewrite append_empty_r.
  - destruct (is_header t); simpl; rewrite IH; [reflexivity|].
    now rewrite !append_assoc.
Qed.

Lemma In_slice {A : Type} (x : A) (l : list A) (i n : nat) :
  In x (firstn n (skipn i l)) -> In x l.
Proof.
  revert i n. induction l as [|y l IH]; intros i n H.
  - destruct i, n; contradiction.
  - destruct i as [|i]; [|right; exact (IH i n H)].
    destruct n as [|n]; [contradiction|].
    destruct H as [H|H]; [left; exact H | right; exact (IH 0 n H)].
Qed.

Lemma lines_of_In (prefix : string) (l : list string) (i1 i2 : nat) (text : string) :
  In text (Difflib.lines_of prefix l i1 i2) -> exists x, In x l /\ text = prefix +:+ x.
Proof.
  unfold Difflib.lines_of. intros H. apply in_map_iff in H as (x & <- & Hx).
  exists x. split; [eapply In_slice; eassumption | reflexivity].
Qed.

Lemma removed_kind (a b : list string) (i1 i2 : nat) (text : string) :
  In text (Difflib.lines_of "-" a i1 i2) -> diff_line_kind a b text.
Proof.
  intros H. apply lines_of_In in H as (x & Hx & ->).
  right; right; left. exists x. auto using is_header_removed.
Qed.

Lemma added_kind (a b : list string) (j1 j2 : nat) (text : string) :
  In text (Difflib.lines_of "+" b j1 j2) -> diff_line_kind a b text.
Proof.
  intros H. apply lines_of_In in H as (x & Hx & ->).
  right; right; right. exists x. auto using is_header_added.
Qed.

Lemma opcode_lines_kind (a b : list string) (c : Difflib.Opcode) (text : string) :
  In text (Difflib.opcode_lines a b c) -> diff_line_kind a b text.
Proof.
  destruct c as [[[[tag i1] i2] j1] j2]. destruct tag; simpl; intros H.
  - apply in_app_iff in H as [H|H]; eauto using removed_kind, added_kind.
  - eauto using removed_kind.
  - eauto using added_kind.
  - apply lines_of_In in H as (x & _ & ->).
    right; left. exists x. auto using is_header_context.
Qed.

Lemma group_lines_kind (a b : list string) (group : list Difflib.Opcode) (text : string) :
  In text (Difflib.group_lines a b group) -> diff_line_kind a b text.
Proof.
  unfold Difflib.group_lines.
  destruct group as [|first rest]; [intros []|].
  destruct (List.last (map Some (first :: rest)) None) as [last|]; [|intros []].
  destruct first as [[[[? f1] ?] f3] ?], last as [[[[? ?] l2] ?] l4].
  intros [<- | H].
  - left. split; [reflexivity|]. right; right. apply startswith_app.
  - apply in_flat_map in H as (c & _ & H). eapply opcode_lines_kind; eassumption.
Qed.

Lemma unified_diff_kinds (a b : list string) :
  Forall (diff_line_kind a b) (Difflib.unified_diff a b).
Proof.
  unfold Difflib.unified_diff.
  destruct (Difflib.get_grouped_opcodes a b 3) as [|g groups]; [constructor|].
  constructor; [left; split; [reflexivity | left; reflexivity]|].
  constructor; [left; split; [reflexivity | right; left; reflexivity]|].
  apply List.Forall_forall. intros text H.
  apply in_flat_map in H as (group & _ & H). eapply group_lines_kind; eassumption.
Qed.

Lemma filter_all {A : Type} (p : A -> bool) (l : list A) :
  (forall x, In x l -> p x = true) -> List.filter p l = l.
Proof.
  induction l as [|y l IH]; intros H; [reflexivity|].
  simpl. rewrite (H y (or_introl eq_refl)), IH; [reflexivity|].
  intros x Hx. apply H. now right.
Qed.

Lemma filter_flat_map {A B : Type} (p : B -> bool) (f : A -> list B) (l : list A) :
  List.filter p (flat_map f l) = flat_map (fun x => List.filter p (f x)) l.
Proof.
  induction l as [|y l IH]; [reflexivity|].
  simpl. now rewrite List.filter_app, IH.
Qed.

Lemma last_map_Some {A : Type} (x : A) (l : list A) :
  exists y, List.last (map Some (x :: l)) None = Some y.
Proof.
  revert x. induction l as [|z l IH]; intros x; [now exists x|].
  destruct (IH z) as [y Hy]. exists y. exact Hy.
Qed.

Section Kept.

Variables a b : list string.
Hypothesis removed_plain : forall x, In x a -> Py.startswith "--" x = false.
Hypothesis added_plain : forall x, In x b -> Py.startswith "++" x = false.

Lemma opcode_lines_kept (c : Difflib.Opcode) (text : string) :
  In text (Difflib.opcode_lines a b c) -> negb (is_header text) = true.
Proof.
  assert (Hr : forall i1 i2, In text (Difflib.lines_of "-" a i1 i2) ->
                             negb (is_header text) = true).
  { intros i1 i2 H. apply lines_of_In in H as (x & Hx & ->).
    now rewrite is_header_removed, removed_plain. }
  assert (Ha : forall j1 j2, In text (Difflib.lines_of "+" b j1 j2) ->
                             negb (is_header text) = true).
  { intros j1 j2 H. apply lines_of_In in H as (x & Hx & ->).
    now rewrite is_header_added, added_plain. }
  destruct c as [[[[tag i1] i2] j1] j2]. destruct tag; simpl; intros H.
  - apply in_app_iff in H as [H|H]; eauto.
  - eauto.
  - eauto.
  - apply lines_of_In in H as (x & _ & ->). reflexivity.
Qed.

Lemma group_lines_kept (group : list Difflib.Opcode) :
  List.filter (fun text => negb (is_header text)) (Difflib.group_lines a b group) =
  flat_map (Difflib.opcode_lines a b) group.
Proof.
  unfold Difflib.group_lines. destruct group as [|first rest]; [reflexivity|].
  destruct (last_map_Some first rest) as [last ->].
  destruct first as [[[[? f1] ?] f3] ?], last as [[[[? ?] l2] ?] l4].
  cbn [List.filter]. change (is_header ("@@ -" +:+ _)) with true. cbn [negb].
  apply filter_all. intros text H.
  apply in_flat_map in H as (c & _ & H). eapply opcode_lines_kept; eassumption.
Qed.

Lemma unified_diff_kept :
  List.filter (fun text => negb (is_header text)) (Difflib.unified_diff a b) =
  Difflib.body_lines a b.
Proof.
  unfold Difflib.unified_diff, Difflib.body_lines.
  destruct (Difflib.get_grouped_opcodes a b 3) as [|g groups]; [reflexivity|].
  cbn [List.filter]. change (is_header ("--- " +:+ _)) with true.
  change (is_header ("+++ " +:+ _)) with true. cbn [negb].
  rewrite filter_flat_map. apply flat_map_ext. intros group. apply group_lines_kept.
Qed.

End Kept.

(** C7: [changes] drops more than the header lines.  When the line [--] is
    replaced by [x], the diff has the three header lines and the two lines
    [---] and [+x], and [changes] reports the second of these only.  When
    the line [---] is taken out between the lines [a] and [b], the report
    is the two context lines, with no change in it. *)
Theorem changes_drops_removed_line :
  Difflib.unified_diff ["--"%string] ["x"%string] =
    ["--- " +:+ NL; "+++ " +:+ NL; "@@ -1 +1 @@" +:+ NL; "---"; "+x"]%string /\
  changes {| input_path := "a.md"; target_path := "a.md";
             original_contents := "--"; contents := "x" |} = "+x" +:+ NL /\
  changes_less_three_headers
    {| input_path := "a.md"; target_path := "a.md";
       original_contents := "--"; contents := "x" |} = "---" +:+ NL +:+ "+x" +:+ NL /\
  changes {| input_path := "a.md"; target_path := "a.md";
             original_contents := "--"; contents := "x" |} <>
  changes_less_three_headers
    {| input_path := "a.md"; target_path := "a.md";
       original_contents := "--"; contents := "x" |} /\
  changes {| input_path := "a.md"; target_path := "a.md";
             original_contents := "a" +:+ NL +:+ "---" +:+ NL +:+ "b";
             contents := "a" +:+ NL +:+ "b" |} = " a" +:+ NL +:+ " b" +:+ NL.
Proof.
  split; [vm_compute; reflexivity|]. split; [vm_compute; reflexivity|].
  split; [vm_compute; reflexivity|]. split; [vm_compute; discriminate|].
  vm_compute. reflexivity.
Qed.

(** X15: what [changes] reports of a changed document.  It is the unified
    diff of the original and the current lines without every line whose
    first three characters are [+++], [---] or [@@ ], each line kept being
    followed by a newline; the lines dropped are the two file headers, the
    header of every hunk, the removed lines whose text starts with [--] and
    the added lines whose text starts with [++].  When no original line
    starts with [--] and no current line starts with [++], the report is
    the diff without its headers.  For an unchanged document it is
    empty. *)
Theorem changes_drops_prefixed (d : Document) :
  let a := Py.split "010" (original_contents d) in
  let b := Py.split "010" (contents d) in
  (original_contents d = contents d -> changes d = ""%string) /\
  (original_contents d <> contents d ->
   (forall x, In x a -> Py.startswith "--" x = false) ->
   (forall x, In x b -> Py.startswith "++" x = false) ->
   changes d = newline_terminated (Difflib.body_lines a b)) /\
  (original_contents d <> contents d ->
   changes d =
   newline_terminated
     (List.filter (fun text => negb (is_header text)) (Difflib.unified_diff a b))) /\
  Forall (diff_line_kind a b) (Difflib.unified_diff a b).
Proof.
  intros a b.
  assert (Hgen : original_contents d <> contents d ->
                 changes d =
                 newline_terminated
                   (List.filter (fun text => negb (is_header text))
                                (Difflib.unified_diff a b))).
  { intros Hne. unfold changes, unchanged.
    apply String.eqb_neq in Hne. rewrite Hne. simpl negb.
    fold a. fold b. now rewrite changes_fold. }
  split; [|split; [|split]].
  - intros Heq. unfold changes, unchanged. now rewrite Heq, String.eqb_refl.
  - intros Hne Ha Hb. now rewrite (Hgen Hne), (unified_diff_kept a b Ha Hb).
  - exact Hgen.
  - apply unified_diff_kinds.
Qed.

Lemma changes_drops_prefixed_witness :
  changes {| input_path := "a.md"; target_path := "a.md";
             original_contents := "a" +:+ NL +:+ "b"; contents := "a" +:+ NL +:+ "c" |}
  = " a" +:+ NL +:+ "-b" +:+ NL +:+ "+c" +:+ NL.
Proof.
  destruct (changes_drops_prefixed
              {| input_path := "a.md"; target_path := "a.md";
                 original_contents := "a" +:+ NL +:+ "b";
                 contents := "a" +:+ NL +:+ "c" |}) as (_ & H & _ & _).
  rewrite H; [vm_compute; reflexivity | discriminate | |].
  - intros x [<- | [<- | []]]; reflexivity.
  - intros x [<- | [<- | []]]; reflexivity.
Defined.

Example changes_two_hunks :
  length (List.filter is_header
            (Difflib.unified_diff
               ["a"; "1"; "2"; "3"; "4"; "5"; "6"; "7"; "b"]%string
               ["A"; "1"; "2"; "3"; "4"; "5"; "6"; "7"; "B"]%string)) = 4.
Proof. vm_compute. reflexivity. Qed.

(** ** Rule dispatch *)

Lemma matches_star (toks : list Fnmatch.Tok) (name : string) :
  Fnmatch.matches (Fnmatch.TStar :: toks) name =
  Fnmatch.matches toks name ||
  match name with
  | String _ s' => Fnmatch.matches (Fnmatch.TStar :: toks) s'
  | EmptyString => false
  end.
Proof. destruct name; reflexivity. Qed.

Lemma matches_literal (p name : string) :
  Fnmatch.matches (Fnmatch.literal p) name = String.eqb name p.
Proof.
  revert name. induction p as [|c p IH]; intros name.
  - destruct name; reflexivity.
  - destruct name as [|a name]; [reflexivity|]. simpl. now rewrite IH.
Qed.

Lemma matches_star_literal (p name : string) :
  Fnmatch.matches (Fnmatch.TStar :: Fnmatch.literal p) name = true <->
  exists stem, name = stem +:+ p.
Proof.
  induction name as [|a name IH]; rewrite matches_star, matches_literal.
  - rewrite orb_false_r, String.eqb_eq. split.
    + intros <-. now exists ""%string.
    + intros [[|c stem] H]; [exact H | discriminate H].
  - rewrite orb_true_iff, String.eqb_eq, IH. split.
    + intros [<- | [stem ->]]; [now exists ""%string | now exists (String a stem)].
    + intros [[|c stem] H]; [left; exact H|].
      injection H as -> ->. right. now exists stem.
Qed.

(** C8: calling a rule runs its transform exactly when the document's input
    path matches the rule's filter: the call then is the transform, whatever
    the transform, and otherwise it returns with the state as it was.  The
    target path plays no part in the test.  Under the filter [*.md] a
    document whose input path does not end in [.md] is left alone. *)
Theorem rule_dispatch (glob : string) (pass : Passes) (w : World) :
  ((forall func, DocumentRule_call (document_rule glob pass func) w = func w) <->
   Fnmatch.fnmatch (input_path (document w)) glob = true) /\
  (Fnmatch.fnmatch (input_path (document w)) glob = false ->
   forall func, DocumentRule_call (document_rule glob pass func) w = Done w) /\
  (forall func p,
     _applies (document_rule glob pass func) (set_target_path (document w) p) =
     _applies (document_rule glob pass func) (document w)) /\
  (glob = "*.md"%string ->
   ~ (exists stem, input_path (document w) = stem +:+ ".md") ->
   forall func, DocumentRule_call (document_rule glob pass func) w = Done w).
Proof.
  unfold DocumentRule_call, _applies, document_rule. cbn [function file_filter].
  repeat split.
  - intros H. specialize (H (fun _ => Raised ValueError)).
    destruct (Fnmatch.fnmatch _ _); [reflexivity | discriminate H].
  - intros -> func. reflexivity.
  - intros -> func. reflexivity.
  - intros -> Hno func.
    destruct (Fnmatch.fnmatch _ _) eqn:Hm; [|reflexivity].
    exfalso. apply Hno. now apply (matches_star_literal ".md").
Qed.

Lemma rule_dispatch_witness :
  DocumentRule_call (apply_macros Sample.E 5)
    (Sample.world "/docs" None None "/docs/notes.txt" "${author}") =
  Done (Sample.world "/docs" None None "/docs/notes.txt" "${author}").
Proof.
  destruct (rule_dispatch "*.md" FIRST
              (Sample.world "/docs" None None "/docs/notes.txt" "${author}"))
    as (_ & H & _ & _).
  exact (H eq_refl (apply_macros_fn Sample.E 5)).
Defined.

(** ** Table of contents *)

Lemma len_leading_hashes (line : string) :
  Py.len line = leading_hashes line + Py.len (Py.lstrip_char "#" line).
Proof.
  unfold Py.lstrip_char, Py.len. induction line as [|a line IH]; [reflexivity|].
  cbn [leading_hashes Py.lstrip_by String.length].
  rewrite (Ascii.eqb_sym "#" a).
  destruct (Ascii.eqb a "#"); cbn [String.length]; [rewrite IH|]; reflexivity.
Qed.

Lemma indent_of_heading (line : string) :
  _calculate_toc_indent_for_heading line = toc_indent line.
Proof.
  unfold _calculate_toc_indent_for_heading, toc_indent.
  pose proof (len_leading_hashes line). lia.
Qed.

Lemma toc_entries (E : Env) (ls : list string) :
  flat_map (toc_entry E) ls = map (toc_pair E) (List.filter (Py.startswith "#") ls).
Proof.
  induction ls as [|l ls IH]; [reflexivity|].
  simpl. unfold toc_entry at 1.
  destruct (Py.startswith "#" l); simpl; rewrite IH; [|reflexivity].
  now rewrite indent_of_heading.
Qed.






Example create_table_of_contents_example :
  contents <$> (document <$> DocumentRule_call (create_table_of_contents Sample.E)
                               (Sample.world "/docs" None None "/docs/a.md"
                                  ("${create_table_of_contents}" +:+ NL +:+ "# A" +:+ NL +:+ "## B")))
  = Done (" - [A](#A)" +:+ NL +:+ "   - [B](#B)" +:+ NL +:+ "# A" +:+ NL +:+ "## B").
Proof. vm_compute. reflexivity. Qed.

(** * Further properties *)

(** ** Spans *)

Lemma drop_empty (n : nat) : Py.drop n "" = ""%string.
Proof. now destruct n. Qed.

Lemma drop_add (s p : nat) (t : string) : Py.drop (s + p) t = Py.drop s (Py.drop p t).
Proof.
  revert t. induction p as [|p IH]; intros t.
  - now rewrite Nat.add_0_r.
  - rewrite Nat.add_succ_r. destruct t as [|c t]; [now rewrite !drop_empty|].
    exact (IH t).
Qed.

Lemma take_drop (n : nat) (t : string) : Py.take n t +:+ Py.drop n t = t.
Proof.
  revert t. induction n as [|n IH]; intros t; [now destruct t|].
  destruct t as [|c t]; [reflexivity|].
  change (String c (Py.take n t +:+ Py.drop n t) = String c t). now rewrite IH.
Qed.

Lemma len_app (a b : string) : Py.len (a +:+ b) = Py.len a + Py.len b.
Proof.
  unfold Py.len. induction a as [|c a IH]; [reflexivity|].
  change (S (String.length (a +:+ b)) = S (String.length a + String.length b)).
  now rewrite IH.
Qed.

Lemma len_take (n : nat) (t : string) : n <= Py.len t -> Py.len (Py.take n t) = n.
Proof.
  unfold Py.len. revert t. induction n as [|n IH]; intros t H; [now destruct t|].
  destruct t as [|c t]; [inversion H|]. simpl in *. rewrite IH; lia.
Qed.

Lemma len_drop (n : nat) (t : string) : Py.len (Py.drop n t) = Py.len t - n.
Proof.
  unfold Py.len. revert t. induction n as [|n IH]; intros t; [simpl; lia|].
  destruct t as [|c t]; [reflexivity|]. exact (IH t).
Qed.

Lemma take_app_len (a b : string) : Py.take (Py.len a) (a +:+ b) = a.
Proof.
  unfold Py.len. induction a as [|c a IH]; [now destruct b|].
  change (String c (Py.take (String.length a) (a +:+ b)) = String c a). now rewrite IH.
Qed.

Lemma take_take_app (n : nat) (text rest : string) :
  n <= Py.len text -> Py.take n (Py.take n text +:+ rest) = Py.take n text.
Proof.
  revert text. induction n as [|n IH]; intros text Hn; [now destruct text|].
  destruct text as [|c text]; [inversion Hn|].
  change (String c (Py.take n (Py.take n text +:+ rest)) = String c (Py.take n text)).
  rewrite IH; [reflexivity|]. unfold Py.len in *. simpl in Hn. lia.
Qed.

Lemma drop_app_len (a b : string) : Py.drop (Py.len a) (a +:+ b) = b.
Proof.
  unfold Py.len. induction a as [|c a IH]; [reflexivity|]. exact IH.
Qed.

(** X1: the positions that [_get_next_match] returns are positions in the
    whole contents: they are not before the scan pointer, and the text they
    delimit is the text that the pattern matched in the part after the
    pointer. *)
Theorem get_next_match_span (d : Document) (pointer : nat) (regex : Pattern)
    (m : Match) (start end_ : nat) :
  _get_next_match d pointer regex = (Some m, start, end_) ->
  regex (Py.drop pointer (contents d)) = Some m /\
  pointer <= start /\
  group0 d start end_ =
    Py.slice (fst (span m)) (snd (span m)) (Py.drop pointer (contents d)).
Proof.
  unfold _get_next_match.
  destruct (regex (Py.drop pointer (contents d))) as [m'|]; [|discriminate].
  intros H. injection H as -> <- <-. split; [reflexivity|]. split; [lia|].
  unfold group0, Py.slice. rewrite drop_add. f_equal. lia.
Qed.

Lemma get_next_match_span_witness :
  group0 (Document_init "/docs/a.md" "see ${author}") 4 13 = "${author}"%string.
Proof.
  destruct (get_next_match_span (Document_init "/docs/a.md" "see ${author}") 2
              (regex_const_macro Sample.E)
              {| span := (2, 11); group1 := "author"; group2 := "" |} 4 13 eq_refl)
    as (_ & _ & H).
  rewrite H. reflexivity.
Defined.

(** X2: [_replace_span] touches the span only.  For a span inside the
    contents, the text before it and the text after it are kept, the
    replacement stands between them, the length changes by the difference
    between the replacement and the span, and putting back the text of the
    span gives the contents again. *)
Theorem replace_span_frame (d : Document) (start end_ : nat) (replacement : string) :
  start <= end_ -> end_ <= Py.len (contents d) ->
  let r := _replace_span d start end_ replacement in
  Py.take start r = Py.take start (contents d) /\
  Py.slice start (start + Py.len replacement) r = replacement /\
  Py.drop (start + Py.len replacement) r = Py.drop end_ (contents d) /\
  Py.len r + (end_ - start) = Py.len (contents d) + Py.len replacement /\
  _replace_span d start end_ (Py.slice start end_ (contents d)) = contents d.
Proof.
  intros Hse Hel r.
  assert (Hr : r = Py.take start (contents d) +:+ replacement +:+ Py.drop end_ (contents d))
    by reflexivity.
  assert (Hs : start <= Py.len (contents d)) by lia.
  assert (Hd : Py.drop start r = replacement +:+ Py.drop end_ (contents d))
    by (rewrite Hr; now apply drop_take_app).
  repeat split.
  - rewrite Hr. now apply take_take_app.
  - unfold Py.slice. rewrite Hd.
    replace (start + Py.len replacement - start) with (Py.len replacement) by lia.
    apply take_app_len.
  - rewrite Nat.add_comm, drop_add, Hd. apply drop_app_len.
  - rewrite Hr, !len_app, len_take, len_drop by exact Hs. lia.
  - unfold _replace_span, Py.slice. cbn [Py.join]. change ("" +:+ ?x) with x.
    replace (Py.drop end_ (contents d))
      with (Py.drop (end_ - start) (Py.drop start (contents d)))
      by (rewrite <- drop_add; f_equal; lia).
    rewrite take_drop. apply take_drop.
Qed.

Lemma replace_span_frame_witness :
  Py.len (_replace_span (Document_init "/docs/a.md" "see ${author}") 4 13 "hello") + 9 = 13 + 5.
Proof.
  destruct (replace_span_frame (Document_init "/docs/a.md" "see ${author}") 4 13 "hello")
    as (_ & _ & _ & H & _); [lia | simpl; lia |].
  exact H.
Defined.

(** ** Arguments *)

Lemma rstrip_by_keep (p : ascii -> bool) (c : ascii) (r : string) :
  p c = false -> Py.rstrip_by p (String c r) = String c (Py.rstrip_by p r).
Proof.
  intros H. simpl. destruct (Py.rstrip_by p r); [now rewrite H | reflexivity].
Qed.

Lemma rstrip_by_twice (p : ascii -> bool) (s : string) :
  Py.rstrip_by p (Py.rstrip_by p s) = Py.rstrip_by p s.
Proof.
  induction s as [|a s IH]; [reflexivity|].
  simpl. destruct (Py.rstrip_by p s) as [|b r] eqn:Hr.
  - destruct (p a) eqn:Ha; [reflexivity|]. simpl. now rewrite Ha.
  - simpl. simpl in IH. rewrite IH. reflexivity.
Qed.

Lemma lstrip_by_head (p : ascii -> bool) (s : string) :
  Py.lstrip_by p s = ""%string \/
  exists c r, Py.lstrip_by p s = String c r /\ p c = false.
Proof.
  induction s as [|a s IH]; [now left|].
  simpl. destruct (p a) eqn:Ha; [exact IH|]. right. now exists a, s.
Qed.

Lemma strip_twice (s : string) : Py.strip (Py.strip s) = Py.strip s.
Proof.
  unfold Py.strip.
  destruct (lstrip_by_head Py.isspace s) as [-> | (c & r & -> & Hc)]; [reflexivity|].
  rewrite (rstrip_by_keep _ _ _ Hc).
  cbn [Py.lstrip_by]. rewrite Hc.
  now rewrite (rstrip_by_keep _ _ _ Hc), rstrip_by_twice.
Qed.

Lemma count_lstrip_by (p : ascii -> bool) (c : ascii) (s : string) :
  count_char c (Py.lstrip_by p s) <= count_char c s.
Proof.
  induction s as [|a s IH]; [reflexivity|].
  simpl. destruct (p a); simpl; lia.
Qed.

Lemma count_rstrip_by (p : ascii -> bool) (c : ascii) (s : string) :
  count_char c (Py.rstrip_by p s) <= count_char c s.
Proof.
  induction s as [|a s IH]; [reflexivity|].
  simpl. destruct (Py.rstrip_by p s) as [|b r].
  - destruct (p a); simpl; lia.
  - simpl in *. lia.
Qed.

Lemma count_strip (c : ascii) (s : string) : count_char c (Py.strip s) <= count_char c s.
Proof.
  unfold Py.strip.
  etransitivity; [apply count_rstrip_by | apply count_lstrip_by].
Qed.

Lemma split_pieces (c : ascii) (s : string) :
  length (Py.split c s) = S (count_char c s) /\
  forall piece, In piece (Py.split c s) -> count_char c piece = 0.
Proof.
  induction s as [|a s [IHl IHp]].
  - split; [reflexivity|]. intros piece [<- | []]. reflexivity.
  - simpl. destruct (Ascii.eqb a c) eqn:Ha.
    + split; [simpl; now rewrite IHl|].
      intros piece [<- | H]; [reflexivity | now apply IHp].
    + destruct (Py.split c s) as [|h t]; [discriminate IHl|].
      split; [simpl in *; lia|].
      intros piece [<- | H].
      * simpl. rewrite Ha. apply IHp. now left.
      * apply IHp. now right.
Qed.

(** X3: what [_extract_args] returns of a non-empty argument string: one
    argument more than the string has commas, none of which contains a comma
    and each of which is trimmed, so that trimming it again changes
    nothing. *)
Theorem extract_args_pieces (value : string) :
  value <> ""%string ->
  length (_extract_args value) = S (count_char "," value) /\
  forall arg, In arg (_extract_args value) ->
    count_char "," arg = 0 /\ Py.strip arg = arg.
Proof.
  intros Hne. destruct value as [|a v]; [congruence|].
  unfold _extract_args. destruct (split_pieces "," (String a v)) as [Hl Hp].
  split; [now rewrite length_map|].
  intros arg H. apply in_map_iff in H as (piece & <- & Hin). split.
  - pose proof (count_strip "," piece). rewrite (Hp piece Hin) in H. lia.
  - apply strip_twice.
Qed.

Lemma extract_args_pieces_witness : length (_extract_args "hi, there ,") = 3.
Proof.
  apply (extract_args_pieces "hi, there ,"). discriminate.
Defined.

(** ** Documents without the placeholder *)

Lemma join_cons_char (sep : string) (a : ascii) (h : string) (t : list string) :
  Py.join sep (String a h :: t) = String a (Py.join sep (h :: t)).
Proof. destruct t; reflexivity. Qed.

Lemma join_cons_cons (sep x y : string) (l : list string) :
  Py.join sep (x :: y :: l) = x +:+ sep +:+ Py.join sep (y :: l).
Proof. reflexivity. Qed.

Lemma join_split (c : ascii) (s : string) : Py.join (String c "") (Py.split c s) = s.
Proof.
  induction s as [|a s IH]; [reflexivity|].
  simpl. pose proof (split_not_nil c s) as Hnil.
  destruct (Ascii.eqb_spec a c) as [->|Hne];
    destruct (Py.split c s) as [|h t]; try contradiction.
  - rewrite join_cons_cons, IH. reflexivity.
  - rewrite join_cons_char. now rewrite IH.
Qed.

Lemma startswith_app_r (sub x post : string) :
  Py.startswith sub x = true -> Py.startswith sub (x +:+ post) = true.
Proof.
  unfold Py.startswith. revert x. induction sub as [|c sub IH]; intros x H.
  - now destruct (x +:+ post).
  - destruct x as [|a x]; [discriminate H|].
    change (String a x +:+ post) with (String a (x +:+ post)).
    simpl in *. destruct (ascii_dec c a); [now apply IH | discriminate H].
Qed.

Lemma contains_app_r (sub x post : string) :
  Py.contains sub x = true -> Py.contains sub (x +:+ post) = true.
Proof.
  induction x as [|a x IH]; intros H.
  - destruct sub as [|c sub]; [now destruct post | discriminate H].
  - change (String a x +:+ post) with (String a (x +:+ post)).
    cbn [Py.contains] in *. apply orb_true_iff in H as [H|H].
    + apply (startswith_app_r sub (String a x) post) in H.
      change (String a x +:+ post) with (String a (x +:+ post)) in H. now rewrite H.
    + rewrite (IH H). apply orb_true_r.
Qed.

Lemma contains_app_l (sub pre x : string) :
  Py.contains sub x = true -> Py.contains sub (pre +:+ x) = true.
Proof.
  intros H. induction pre as [|a pre IH]; [exact H|].
  change (String a pre +:+ x) with (String a (pre +:+ x)).
  cbn [Py.contains]. rewrite IH. apply orb_true_r.
Qed.

Lemma split_head_prefix (c : ascii) (s h : string) (t : list string) :
  Py.split c s = h :: t -> exists post, s = h +:+ post.
Proof.
  revert h t. induction s as [|a s IH]; intros h t H.
  - injection H as <- _. now exists ""%string.
  - simpl in H. destruct (Ascii.eqb a c).
    + injection H as <- _. now exists (String a s).
    + destruct (Py.split c s) as [|h' t'] eqn:Hs; injection H as <- _.
      * now exists s.
      * destruct (IH h' t' eq_refl) as [post ->]. now exists post.
Qed.

Lemma split_piece_inside (c : ascii) (s piece : string) :
  In piece (Py.split c s) -> exists pre post, s = pre +:+ piece +:+ post.
Proof.
  revert piece. induction s as [|a s IH]; intros piece H.
  - destruct H as [<- | []]. now exists ""%string, ""%string.
  - simpl in H. destruct (Ascii.eqb a c).
    + destruct H as [<- | H]; [now exists ""%string, (String a s)|].
      destruct (IH piece H) as (pre & post & ->). now exists (String a pre), post.
    + destruct (Py.split c s) as [|h t] eqn:Hs.
      * destruct H as [<- | []]. now exists ""%string, s.
      * destruct H as [<- | H].
        -- destruct (split_head_prefix c s h t Hs) as [post ->].
           now exists ""%string, post.
        -- destruct (IH piece (or_intror H)) as (pre & post & ->).
           now exists (String a pre), post.
Qed.

Lemma toc_processed_plain (E : Env) (lines : list string) :
  (forall line, In line lines -> Py.contains TABLE_OF_CONTENTS_VARIABLE line = false) ->
  toc_processed E lines = lines.
Proof.
  induction lines as [|l lines IH]; intros H; [reflexivity|].
  simpl. rewrite (H l (or_introl eq_refl)), IH; [reflexivity|].
  intros line Hin. apply H. now right.
Qed.

(** X4: a document whose contents do not hold the placeholder comes out of
    the table-of-contents rule as it went in: cutting the contents into
    lines and joining the lines again gives the contents back. *)
Theorem create_table_of_contents_without_placeholder (E : Env) (w : World) :
  Py.contains TABLE_OF_CONTENTS_VARIABLE (contents (document w)) = false ->
  create_table_of_contents_fn E w = Done w.
Proof.
  intros H. unfold create_table_of_contents_fn.
  rewrite toc_processed_plain.
  - change NL with (String "010" ""). rewrite join_split.
    destruct w as [c [ip tp oc ct] l]. reflexivity.
  - intros line Hin.
    destruct (Py.contains TABLE_OF_CONTENTS_VARIABLE line) eqn:Hc; [|reflexivity].
    apply split_piece_inside in Hin as (pre & post & Hs).
    rewrite Hs in H. rewrite contains_app_l in H; [discriminate H|].
    now apply contains_app_r.
Qed.

Lemma create_table_of_contents_without_placeholder_witness :
  create_table_of_contents_fn Sample.E
    (Sample.world "/docs" None None "/docs/a.md" ("# A" +:+ NL +:+ NL +:+ "text" +:+ NL)) =
  Done (Sample.world "/docs" None None "/docs/a.md" ("# A" +:+ NL +:+ NL +:+ "text" +:+ NL)).
Proof.
  apply create_table_of_contents_without_placeholder. reflexivity.
Defined.

(** ** What the rules leave alone *)

Lemma text_frame_refl (w : World) : text_frame w w.
Proof.
  repeat split. exists []. now rewrite app_nil_r.
Qed.

Lemma text_frame_trans (w1 w2 w3 : World) :
  text_frame w1 w2 -> text_frame w2 w3 -> text_frame w1 w3.
Proof.
  intros (Hc & (Hi & Ht & Ho) & l & Hl) (Hc' & (Hi' & Ht' & Ho') & l' & Hl').
  repeat split; try congruence.
  exists (l ++ l'). rewrite Hl', Hl. now rewrite <- app_assoc.
Qed.

Lemma text_frame_contents (w : World) (c : string) :
  text_frame w (with_document w (set_contents (document w) c)).
Proof.
  repeat split. exists []. simpl. now rewrite app_nil_r.
Qed.

Lemma text_frame_logged (w : World) (r : LogRecord) : text_frame w (logged w r).
Proof.
  repeat split. now exists [r].
Qed.

Section Frames.

Variable E : Env.

Lemma const_macro_body_frame (w : World) (m : Match) (start end_ : nat) :
  text_frame w (fst (const_macro_body w m start end_)).
Proof.
  unfold const_macro_body.
  destruct (macros (settings (context w)) !! group1 m) as [[value|f]|]; simpl;
    auto using text_frame_contents, text_frame_logged.
Qed.

Lemma const_macros_loop_frame (fuel : nat) (w : World) (pointer : nat) :
  match const_macros_loop E fuel w pointer with
  | Done w' => text_frame w w'
  | Raised _ => False
  | OutOfFuel => True
  end.
Proof.
  revert w pointer. induction fuel as [|fuel IH]; intros w pointer;
    cbn [const_macros_loop];
    (destruct (pointer <? Py.len (contents (document w)))%nat;
     [|apply text_frame_refl]);
    (destruct (_get_next_match (document w) pointer (regex_const_macro E))
       as [[[m|] start] end_]; [|apply text_frame_refl]).
  - exact I.
  - pose proof (const_macro_body_frame w m start end_) as Hb.
    destruct (const_macro_body w m start end_) as [w1 p1]. simpl in Hb.
    specialize (IH w1 p1). destruct (const_macros_loop E fuel w1 p1); try exact IH.
    eapply text_frame_trans; eassumption.
Qed.

Lemma function_macro_body_frame (w : World) (m : Match) (start end_ : nat) :
  match function_macro_body w m start end_ with
  | Done (w', _) => text_frame w w'
  | Raised e => e = ValueError /\ unsigned_callable w
  | OutOfFuel => False
  end.
Proof.
  unfold function_macro_body, _run_function_macro.
  destruct (macros (settings (context w)) !! group1 m) as [[value|f]|] eqn:Hf;
    simpl; try apply text_frame_logged.
  destruct (call f (_extract_args (group2 m))) as [value|]; simpl;
    [apply text_frame_contents|].
  destruct (inspect_signature f) as [[signature parameters]|] eqn:Hs.
  - destruct (negb _); simpl; apply text_frame_logged.
  - simpl. split; [reflexivity|]. now exists (group1 m), f.
Qed.

Lemma function_macros_loop_frame (fuel : nat) (w : World) (pointer : nat) :
  match function_macros_loop E fuel w pointer with
  | Done w' => text_frame w w'
  | Raised e => e = ValueError /\ unsigned_callable w
  | OutOfFuel => True
  end.
Proof.
  revert w pointer. induction fuel as [|fuel IH]; intros w pointer;
    cbn [function_macros_loop];
    (destruct (pointer <? Py.len (contents (document w)))%nat;
     [|apply text_frame_refl]);
    (destruct (_get_next_match (document w) pointer (regex_function_macro E))
       as [[[m|] start] end_]; [|apply text_frame_refl]).
  - exact I.
  - pose proof (function_macro_body_frame w m start end_) as Hb.
    destruct (function_macro_body w m start end_) as [[w1 p1]|e|]; simpl;
      [|exact Hb | contradiction].
    specialize (IH w1 p1). destruct (function_macros_loop E fuel w1 p1) as [w2|e|].
    + eapply text_frame_trans; eassumption.
    + destruct IH as (-> & name & f & Hn & Hs). split; [reflexivity|].
      exists name, f. destruct Hb as (Hc & _). rewrite <- Hc. now split.
    + exact I.
Qed.

(** X5: whatever the macros and the patterns, a run of [apply_macros] that
    returns has changed nothing but the document's contents and the log: the
    context, the input path, the target path and the original contents are
    as before, and the log has its old records first. *)
Theorem apply_macros_frame (fuel : nat) (w w' : World) :
  apply_macros_fn E fuel w = Done w' -> text_frame w w'.
Proof.
  unfold apply_macros_fn, _replace_const_macros, _replace_function_macros.
  pose proof (const_macros_loop_frame fuel w 0) as H1.
  destruct (const_macros_loop E fuel w 0) as [w1|e|]; simpl; try discriminate.
  pose proof (function_macros_loop_frame fuel w1 0) as H2.
  intros H. rewrite H in H2. eapply text_frame_trans; eassumption.
Qed.

Lemma santize_body_frame (w : World) (m : Match) (start end_ : nat) (w' : World) :
  santize_body E w m start end_ = Done w' ->
  context w' = context w /\ log w' = log w /\
  same_but_contents (document w) (document w').
Proof.
  unfold santize_body.
  destruct (PosixPath.resolve _ _ _) as [path|]; [|discriminate].
  destruct (stat_fails E path); [discriminate|].
  destruct (path_exists E path); intros H; injection H as <-; repeat split.
Qed.

Lemma santize_loop_frame (fuel : nat) (w : World) (pointer : nat) (w' : World) :
  santize_loop E fuel w pointer = Done w' ->
  context w' = context w /\ log w' = log w /\
  same_but_contents (document w) (document w').
Proof.
  revert w pointer. induction fuel as [|fuel IH]; intros w pointer;
    cbn [santize_loop];
    (destruct (pointer <? Py.len (contents (document w)))%nat;
     [|intros H; injection H as <-; repeat split]);
    (destruct (_get_next_match (document w) pointer (regex_markdown_link E))
       as [[[m|] start] end_]; [|intros H; injection H as <-; repeat split]).
  - discriminate.
  - destruct (santize_body E w m start end_) as [w1|e|] eqn:Hb; try discriminate.
    cbn [mbind Outcome_bind]. intros H.
    apply santize_body_frame in Hb as (Hc & Hl & Hi & Ht & Ho).
    apply IH in H as (Hc' & Hl' & Hi' & Ht' & Ho').
    repeat split; congruence.
Qed.

(** X7: the link sanitizer never logs, and a run that returns has changed
    nothing but the document's contents: the context, the log, the input
    path, the target path and the original contents are as before. *)
Theorem santize_frame (fuel : nat) (w w' : World) :
  santize_internal_links_fn E fuel w = Done w' ->
  context w' = context w /\ log w' = log w /\
  same_but_contents (document w) (document w').
Proof.
  apply santize_loop_frame.
Qed.

(** X8: the two rules on paths leave the text alone.  When it returns, the
    directory-mirroring rule has changed the target path at most, and the
    renaming rule has changed nothing of the document, not even its target
    path: its result is the [target] attribute of the context, the settings
    being kept. *)
Theorem path_rules_frame (w w' : World) :
  (move_to_target_dir_relative_fn E w = Done w' ->
   context w' = context w /\ log w' = log w /\
   input_path (document w') = input_path (document w) /\
   original_contents (document w') = original_contents (document w) /\
   contents (document w') = contents (document w)) /\
  (rename_uniquely_for_confluence_fn E w = Done w' ->
   document w' = document w /\ log w' = log w /\
   settings (context w') = settings (context w)).
Proof.
  split.
  - unfold move_to_target_dir_relative_fn.
    destruct (target_directory (settings (context w))) as [t|].
    + destruct (negb _).
      * destruct (PosixPath.relpath _ _ _); [|discriminate].
        intros H. injection H as <-. repeat split.
      * intros H. injection H as <-. repeat split.
    + intros H. injection H as <-. repeat split.
  - unfold rename_uniquely_for_confluence_fn.
    destruct (PosixPath.relpath _ _ _); [|discriminate].
    destruct (version_name _); [|discriminate].
    destruct (target_directory _); [|discriminate].
    intros H. injection H as <-. repeat split.
Qed.

End Frames.

Lemma apply_macros_frame_witness :
  text_frame (Sample.world "/docs" None None "/docs/a.md" "${author} ${nobody}")
    (logged
       (with_document (Sample.world "/docs" None None "/docs/a.md" "${author} ${nobody}")
          (set_contents (Document_init "/docs/a.md" "${author} ${nobody}") "hello ${nobody}"))
       (WARNING,
        "Invalid macro: found ${nobody} in /docs/a.md, but no matching macro is defined."%string)).
Proof.
  apply (apply_macros_frame Sample.E 5). vm_compute. reflexivity.
Defined.

Lemma santize_frame_witness :
  same_but_contents
    (Document_init "/docs/test dir/test.md" "[link](../sub%20dir/relative%20-%20file.md)")
    (set_contents
       (Document_init "/docs/test dir/test.md" "[link](../sub%20dir/relative%20-%20file.md)")
       "[link](<../sub dir/relative - file.md>)").
Proof.
  apply (santize_frame Sample.E 5
           (Sample.world "/docs" None None "/docs/test dir/test.md"
              "[link](../sub%20dir/relative%20-%20file.md)")
           (with_document
              (Sample.world "/docs" None None "/docs/test dir/test.md"
                 "[link](../sub%20dir/relative%20-%20file.md)")
              (set_contents
                 (Document_init "/docs/test dir/test.md"
                    "[link](../sub%20dir/relative%20-%20file.md)")
                 "[link](<../sub dir/relative - file.md>)"))).
  vm_compute. reflexivity.
Defined.

Lemma path_rules_frame_witness :
  contents (set_target_path (Document_init "/docs/a/b.md" "text") "/out/../..") = "text"%string.
Proof.
  apply (proj1 (path_rules_frame Sample.E
                  (Sample.world "/docs" (Some "/out"%string) None "/docs/a/b.md" "text")
                  (with_document
                     (Sample.world "/docs" (Some "/out"%string) None "/docs/a/b.md" "text")
                     (set_target_path (Document_init "/docs/a/b.md" "text") "/out/../..")))).
  vm_compute. reflexivity.
Defined.

(** ** Runs that end *)

Lemma search_from_advances (here : SpecRegex.Here) :
  (forall s n g1 g2, here s = Some (n, g1, g2) -> 0 < n) ->
  forall s pos m, SpecRegex.search_from here pos s = Some m -> 0 < snd (span m).
Proof.
  intros Hpos. induction s as [|a s IH]; intros pos m; simpl;
    destruct (here _) as [[[n g1] g2]|] eqn:Hh.
  - intros H. injection H as <-. simpl. apply Hpos in Hh. lia.
  - discriminate.
  - intros H. injection H as <-. simpl. apply Hpos in Hh. lia.
  - apply IH.
Qed.

Lemma link_pattern_advances : advances (SpecRegex.search SpecRegex.link_here).
Proof.
  intros s m. apply search_from_advances. clear. intros s n g1 g2.
  unfold SpecRegex.link_here.
  destruct (Py.startswith "[" s); [|discriminate].
  destruct (SpecRegex.span_while _ _) as [text r].
  destruct (Py.startswith "](" r); [|discriminate].
  destruct (SpecRegex.span_while _ _) as [link r2].
  destruct (Py.startswith ")" _); [|discriminate].
  intros H. injection H as <- _ _. lia.
Qed.

Lemma const_pattern_advances : advances (SpecRegex.search SpecRegex.const_here).
Proof.
  intros s m. apply search_from_advances. clear. intros s n g1 g2.
  unfold SpecRegex.const_here.
  destruct (Py.startswith "${" s); [|discriminate].
  destruct (SpecRegex.span_while _ _) as [name r].
  destruct (_ && _); [|discriminate].
  intros H. injection H as <- _ _. lia.
Qed.

Lemma function_pattern_advances : advances (SpecRegex.search SpecRegex.function_here).
Proof.
  intros s m. apply search_from_advances. clear. intros s n g1 g2.
  unfold SpecRegex.function_here.
  destruct (Py.startswith "${" s); [|discriminate].
  destruct (SpecRegex.span_while _ _) as [name r].
  destruct (_ && _); [|discriminate].
  destruct (SpecRegex.span_while _ _) as [args r'].
  destruct (Py.startswith ")}" r'); [|discriminate].
  intros H. injection H as <- _ _. lia.
Qed.

Section Runs.

Variable E : Env.

Lemma santize_loop_targets_missing (fuel : nat) (w : World) (pointer : nat) :
  advances (regex_markdown_link E) ->
  targets_missing E w ->
  Py.len (contents (document w)) - pointer <= fuel ->
  santize_loop E fuel w pointer = Done w.
Proof.
  intros Hadv Hno. revert pointer. induction fuel as [|fuel IH]; intros pointer Hf;
    cbn [santize_loop];
    (destruct (pointer <? Py.len (contents (document w)))%nat eqn:Hlt; [|reflexivity]);
    apply Nat.ltb_lt in Hlt; [lia|].
  unfold _get_next_match.
  destruct (regex_markdown_link E (Py.drop pointer (contents (document w)))) as [m|] eqn:Hm;
    [|reflexivity].
  destruct (Hno pointer m Hlt Hm) as (path & Hr & Hs & He).
  apply Hadv in Hm.
  assert (Hb : santize_body E w m (fst (span m) + pointer) (snd (span m) + pointer) = Done w)
    by (unfold santize_body; now rewrite Hr, Hs, He).
  rewrite Hb. cbn [mbind Outcome_bind]. apply IH. lia.
Qed.

(** X9: when every link that the scan can meet in the document has a target
    that resolves, can be tested and does not exist, as for a document of
    external links, the link sanitizer ends, given as many iterations as the
    contents have characters, and returns the world as it was; the pattern
    is one whose matches are not empty. *)
Theorem santize_targets_missing (fuel : nat) (w : World) :
  advances (regex_markdown_link E) ->
  targets_missing E w ->
  Py.len (contents (document w)) <= fuel ->
  santize_internal_links_fn E fuel w = Done w.
Proof.
  intros Hadv Hno Hf. apply santize_loop_targets_missing; [assumption | assumption | lia].
Qed.

Lemma const_macros_loop_no_macros (fuel : nat) (w : World) (pointer : nat) :
  advances (regex_const_macro E) ->
  macros (settings (context w)) = ∅ ->
  Py.len (contents (document w)) - pointer <= fuel ->
  exists w', const_macros_loop E fuel w pointer = Done w' /\
             document w' = document w /\ context w' = context w.
Proof.
  intros Hadv. revert w pointer. induction fuel as [|fuel IH]; intros w pointer Hno Hf;
    cbn [const_macros_loop];
    (destruct (pointer <? Py.len (contents (document w)))%nat eqn:Hlt;
     [|now exists w]);
    apply Nat.ltb_lt in Hlt; [lia|].
  unfold _get_next_match.
  destruct (regex_const_macro E (Py.drop pointer (contents (document w)))) as [m|] eqn:Hm;
    [|now exists w].
  apply Hadv in Hm. unfold const_macro_body. rewrite Hno, lookup_empty.
  match goal with
  | |- context [const_macros_loop E fuel ?w1 ?p1] =>
      destruct (IH w1 p1) as (w' & H1 & H2 & H3); [exact Hno | simpl; lia |]
  end.
  exists w'. now rewrite H1, H2, H3.
Qed.

Lemma function_macros_loop_no_macros (fuel : nat) (w : World) (pointer : nat) :
  advances (regex_function_macro E) ->
  macros (settings (context w)) = ∅ ->
  Py.len (contents (document w)) - pointer <= fuel ->
  exists w', function_macros_loop E fuel w pointer = Done w' /\
             document w' = document w /\ context w' = context w.
Proof.
  intros Hadv. revert w pointer. induction fuel as [|fuel IH]; intros w pointer Hno Hf;
    cbn [function_macros_loop];
    (destruct (pointer <? Py.len (contents (document w)))%nat eqn:Hlt;
     [|now exists w]);
    apply Nat.ltb_lt in Hlt; [lia|].
  unfold _get_next_match.
  destruct (regex_function_macro E (Py.drop pointer (contents (document w)))) as [m|] eqn:Hm;
    [|now exists w].
  apply Hadv in Hm. unfold function_macro_body. rewrite Hno, lookup_empty. cbn [mbind Outcome_bind].
  match goal with
  | |- context [function_macros_loop E fuel ?w1 ?p1] =>
      destruct (IH w1 p1) as (w' & H1 & H2 & H3); [exact Hno | simpl; lia |]
  end.
  exists w'. now rewrite H1, H2, H3.
Qed.

(** X10: with an empty macro table [apply_macros] ends, given as many
    iterations as the contents have characters, and leaves the document and
    the context as they were: every token stays in the text (and gives a
    warning).  The patterns are ones whose matches are not empty. *)
Theorem apply_macros_no_macros (fuel : nat) (w : World) :
  advances (regex_const_macro E) ->
  advances (regex_function_macro E) ->
  macros (settings (context w)) = ∅ ->
  Py.len (contents (document w)) <= fuel ->
  exists w', apply_macros_fn E fuel w = Done w' /\
             document w' = document w /\ context w' = context w.
Proof.
  intros Hc Hf Hno Hlen. unfold apply_macros_fn, _replace_const_macros, _replace_function_macros.
  destruct (const_macros_loop_no_macros fuel w 0 Hc Hno) as (w1 & H1 & Hd & Hx); [lia|].
  rewrite H1. cbn [mbind Outcome_bind].
  destruct (function_macros_loop_no_macros fuel w1 0 Hf) as (w2 & H2 & Hd2 & Hx2).
  - now rewrite Hx.
  - rewrite Hd. lia.
  - exists w2. split; [exact H2|]. split; congruence.
Qed.

(** X11: a constant macro whose value puts back the very text of its token,
    found at the scan pointer, keeps the constant pass running for ever: the
    replacement changes nothing and the scan resumes at the same place, so
    no number of iterations is enough. *)
Theorem const_macro_self_expansion (w : World) (pointer : nat) (m : Match) (value : string) :
  (pointer <? Py.len (contents (document w)))%nat = true ->
  regex_const_macro E (Py.drop pointer (contents (document w))) = Some m ->
  fst (span m) = 0 ->
  macros (settings (context w)) !! group1 m = Some (MConst value) ->
  _replace_span (document w) pointer (snd (span m) + pointer) value = contents (document w) ->
  forall fuel, const_macros_loop E fuel w pointer = OutOfFuel.
Proof.
  intros Hlt Hm Hs Hv Hsame fuel. induction fuel as [|fuel IH];
    cbn [const_macros_loop]; rewrite Hlt; unfold _get_next_match; rewrite Hm;
    [reflexivity|].
  unfold const_macro_body. rewrite Hv, Hs. cbn [Nat.add]. rewrite Hsame.
  replace (with_document w (set_contents (document w) (contents (document w)))) with w
    by (now destruct w as [c [ip tp oc ct] l]).
  exact IH.
Qed.

End Runs.

Lemma santize_targets_missing_witness :
  santize_internal_links_fn Sample.E 20
    (Sample.world "/docs" None None "/docs/test.md" "[g](http://x.org)") =
  Done (Sample.world "/docs" None None "/docs/test.md" "[g](http://x.org)").
Proof.
  apply (santize_targets_missing Sample.E 20).
  - exact link_pattern_advances.
  - intros pointer m.
    do 17 (destruct pointer as [|pointer];
           [intros _ Hm; vm_compute in Hm;
            first [discriminate Hm
                  | injection Hm as <-; eexists; vm_compute; repeat split]|]).
    intros Hlt. vm_compute in Hlt. lia.
  - vm_compute. lia.
Defined.

Lemma apply_macros_no_macros_witness :
  exists w',
    apply_macros_fn Fixture.bare 40 (Fixture.no_macros "/docs/a.md" "${author} ${f(x)}")
    = Done w' /\
    document w' = Document_init "/docs/a.md" "${author} ${f(x)}".
Proof.
  destruct (apply_macros_no_macros Fixture.bare 40
              (Fixture.no_macros "/docs/a.md" "${author} ${f(x)}")
              const_pattern_advances function_pattern_advances eq_refl)
    as (w' & H1 & H2 & _); [vm_compute; lia|].
  exists w'. split; [exact H1 | exact H2].
Defined.

Lemma const_macro_self_expansion_witness :
  _replace_const_macros Fixture.bare 1000 (Fixture.looping "${again}") = OutOfFuel.
Proof.
  exact (const_macro_self_expansion Fixture.bare (Fixture.looping "${again}") 0
           {| span := (0, 8); group1 := "again"; group2 := "" |} "${again}"
           eq_refl eq_refl eq_refl eq_refl eq_refl 1000).
Defined.

(** ** Which documents the rules take *)

Lemma matches_star_only (name : string) : Fnmatch.matches [Fnmatch.TStar] name = true.
Proof.
  induction name as [|a name IH]; rewrite matches_star; [reflexivity|].
  rewrite IH. apply orb_true_r.
Qed.

Lemma matches_star_dot_star (name : string) :
  Fnmatch.matches [Fnmatch.TStar; Fnmatch.TLit "."; Fnmatch.TStar] name = true <->
  exists a b, name = a +:+ "." +:+ b.
Proof.
  induction name as [|c name IH]; rewrite matches_star.
  - split; [discriminate|]. intros ([|x a] & b & H); discriminate H.
  - cbn [Fnmatch.matches Fnmatch.tok_matches].
    fold (Fnmatch.matches [Fnmatch.TStar] name). rewrite matches_star_only, andb_true_r.
    rewrite orb_true_iff, IH. split.
    + intros [Hc | (a & b & ->)].
      * apply Ascii.eqb_eq in Hc as ->. now exists ""%string, name.
      * now exists (String c a), b.
    + intros ([|x a] & b & H).
      * injection H as -> ->. left. apply Ascii.eqb_refl.
      * injection H as -> ->. right. now exists a, b.
Qed.

Lemma mirroring_filter (E : Env) (d : Document) :
  _applies (move_to_target_dir_relative E) d = true <->
  exists a b, input_path d = a +:+ "." +:+ b.
Proof. apply matches_star_dot_star. Qed.

Lemma mirroring_skips (E : Env) (w : World) :
  (forall a b, input_path (document w) <> a +:+ "." +:+ b) ->
  DocumentRule_call (move_to_target_dir_relative E) w = Done w.
Proof.
  intros Hno. unfold DocumentRule_call.
  destruct (_applies (move_to_target_dir_relative E) (document w)) eqn:Ha; [|reflexivity].
  apply mirroring_filter in Ha as (a & b & Hab). now apply Hno in Hab.
Qed.

(** X12: the directory-mirroring rule, declared with the default filter
    [*.*], takes a document exactly when its input path has a dot somewhere,
    in a directory name as well as in the file name; called on a document
    whose path has none, it returns the world as it was. *)
Theorem mirroring_takes_dotted_paths (E : Env) (w : World) :
  (_applies (move_to_target_dir_relative E) (document w) = true <->
   exists a b, input_path (document w) = a +:+ "." +:+ b) /\
  ((forall a b, input_path (document w) <> a +:+ "." +:+ b) ->
   DocumentRule_call (move_to_target_dir_relative E) w = Done w).
Proof.
  split; [apply mirroring_filter | apply mirroring_skips].
Qed.

Lemma mirroring_takes_dotted_paths_witness :
  _applies (move_to_target_dir_relative Sample.E)
    (Document_init "/docs/v1.2/LICENSE" "") = true.
Proof.
  apply (proj1 (mirroring_takes_dotted_paths Sample.E
                  (Sample.world "/docs" None None "/docs/v1.2/LICENSE" ""))).
  now exists "/docs/v1"%string, "2/LICENSE"%string.
Defined.

Lemma markdown_filter_skips (func : World -> Outcome World) (w : World) :
  ~ (exists stem, input_path (document w) = stem +:+ ".md") ->
  DocumentRule_call (document_rule "*.md" FIRST func) w = Done w.
Proof.
  intros Hno. unfold DocumentRule_call, _applies, Fnmatch.fnmatch.
  cbn [file_filter document_rule].
  destruct (Fnmatch.matches _ _) eqn:Hm; [|reflexivity].
  exfalso. apply Hno. now apply (matches_star_literal ".md").
Qed.

(** X13: what the catalogues do to the documents they are not meant for.
    No rule of the [CONFLUENCE] catalogue does anything to a document whose
    input path does not end in [.md], no rule of the [GITHUB] catalogue does
    anything to a document whose input path has no dot, and the [CUSTOM]
    catalogue is empty. *)
Theorem catalogue_skips (E : Env) (fuel : nat) (w : World) (rule : DocumentRule) :
  (In rule (GetRulesForStyle E fuel CONFLUENCE) ->
   ~ (exists stem, input_path (document w) = stem +:+ ".md") ->
   DocumentRule_call rule w = Done w) /\
  (In rule (GetRulesForStyle E fuel GITHUB) ->
   (forall a b, input_path (document w) <> a +:+ "." +:+ b) ->
   DocumentRule_call rule w = Done w) /\
  GetRulesForStyle E fuel CUSTOM = [].
Proof.
  split; [|split; [|reflexivity]].
  - intros Hin Hno.
    destruct Hin as [<- | [<- | [<- | [<- | []]]]]; now apply markdown_filter_skips.
  - intros Hin Hno. destruct Hin as [<- | [<- | []]].
    + apply markdown_filter_skips. intros (stem & Hs).
      apply (Hno stem "md"%string). exact Hs.
    + now apply mirroring_skips.
Qed.

Lemma catalogue_skips_witness :
  DocumentRule_call (rename_uniquely_for_confluence Sample.E)
    (Sample.world "/docs" (Some "/out"%string) (Some "develop"%string) "/docs/logo.png" "") =
  Done (Sample.world "/docs" (Some "/out"%string) (Some "develop"%string) "/docs/logo.png" "").
Proof.
  apply (proj1 (catalogue_skips Sample.E 5
                  (Sample.world "/docs" (Some "/out"%string) (Some "develop"%string)
                     "/docs/logo.png" "")
                  (rename_uniquely_for_confluence Sample.E))).
  - simpl. auto.
  - intros (stem & H).
    assert (Hend : Py.endswith ".md" (stem +:+ ".md") = true).
    { unfold Py.endswith. rewrite len_app.
      replace (Py.len stem + Py.len ".md" - Py.len ".md") with (Py.len stem) by lia.
      rewrite drop_app_len, String.eqb_refl, andb_true_r. apply Nat.leb_le. lia. }
    rewrite <- H in Hend. discriminate Hend.
Defined.

(** ** Empty tables *)

Lemma join_not_empty (sep e : string) (rest : list string) :
  e <> ""%string -> Py.join sep (e :: rest) <> ""%string.
Proof.
  intros He. destruct e as [|c e]; [congruence|].
  rewrite join_cons_char. discriminate.
Qed.

Lemma toc_line_not_empty (E : Env) (shift : nat) (heading : string) :
  toc_line shift (toc_pair E heading) <> ""%string.
Proof.
  unfold toc_line, toc_pair. simpl fst. simpl snd.
  destruct (toc_indent heading - shift); discriminate.
Qed.

(** X14: the table of contents is the empty string exactly when none of the
    lines is a heading; the placeholder of a document without a heading
    after it is then taken away and nothing is put in its place. *)
Theorem toc_empty_iff (E : Env) (lines : list string) :
  _create_toc_from_sections E lines = ""%string <-> toc_headings lines = [].
Proof.
  unfold _create_toc_from_sections, toc_headings. rewrite toc_entries.
  destruct (List.filter (Py.startswith "#") (map Py.strip lines)) as [|h hs].
  - split; reflexivity.
  - split; [|discriminate]. intros H. exfalso. revert H.
    cbn [map]. apply join_not_empty, toc_line_not_empty.
Qed.

Lemma toc_empty_iff_witness :
  _create_toc_from_sections Sample.E ["text"; "  more text"; ""]%string = ""%string.
Proof.
  apply (toc_empty_iff Sample.E). reflexivity.
Defined.
